(** * ts-business-time: the [BusinessTime] arithmetic engine

    A shallow embedding of [src/BusinessTime.ts] and the properties of its
    stepping algorithms.

    Modelling conventions.
    - A [moment.Moment] in UTC mode is its epoch offset in milliseconds, a [Z].
      Every integer is taken to be a valid instant, so the constructor's
      invalid-input exception has no counterpart here.
    - A [moment.Duration] is its length in milliseconds, a [Z] (durations
      carry no calendar-month part, so adding one is adding its length).
    - A JavaScript [number] is an exact rational; a division whose divisor
      is zero yields no finite number. JavaScript and moment.js compute
      [asSeconds], [asDays] and their quotients in binary64, so a value of
      the code can differ from the exact one in its last digits (100 min
      over 1 h is 1.6666666666666667 there and 5/3 here). The two agree
      where the operands and the quotient are whole numbers; a theorem
      whose conclusion depends on such a quotient assumes that.
    - A big.js [Big] is an exact rational; [div] rounds to [Big.DP] decimal
      places with rounding mode [Big.RM], as big.js does.
    - The class mutates two of its fields, [moment] (through moment.js'
      in-place [startOf]/[endOf]) and [lengthOfBusinessDayCached]; methods
      that can do so are computations in a state-and-exception monad whose
      state is the receiver.
    - Loops whose termination depends on the constraints take fuel. *)

From Stdlib Require Import ZArith QArith Qabs Qround List Bool Lia Lqa.
Import ListNotations.
Open Scope Z_scope.

(** ** Outcomes of a call *)

Inductive Error : Type :=
| BigInvalidNumber                      (* big.js: "[big.js] Invalid number" *)
| BigDivisionByZero                     (* big.js: "[big.js] Division by zero" *)
| ZeroLengthBusinessDay                 (* "Business day cannot be zero-length." *)
| BusinessDayTooLong (length : Z)       (* "Length of business day cannot be more than 24 hours" *)
| TypeError.                            (* a property read on [undefined] *)

Inductive result (A : Type) : Type :=
| Ok (a : A)
| Throw (e : Error)
| OutOfFuel.
Arguments Ok {A} a.
Arguments Throw {A} e.
Arguments OutOfFuel {A}.

Definition result_map {A B} (f : A -> B) (r : result A) : result B :=
  match r with
  | Ok a => Ok (f a)
  | Throw e => Throw e
  | OutOfFuel => OutOfFuel
  end.

Definition result_bind {A B} (r : result A) (k : A -> result B) : result B :=
  match r with
  | Ok a => k a
  | Throw e => Throw e
  | OutOfFuel => OutOfFuel
  end.

(** ** big.js *)

Module Big.

Definition t := Q.

(** big.js numbers its rounding modes 0 to 3. *)
Inductive RoundingMode : Type :=
| ROUND_DOWN        (* 0: towards zero *)
| ROUND_HALF_UP     (* 1: to nearest, ties away from zero *)
| ROUND_HALF_EVEN   (* 2: to nearest, ties to the even neighbour *)
| ROUND_UP.         (* 3: away from zero *)

Definition DP : nat := 20%nat.
Definition RM : RoundingMode := ROUND_HALF_UP.

Definition pow10 (dp : nat) : positive := Nat.iter dp (Pos.mul 10) 1%positive.

(** The integer that [n / d] rounds to under [rm]. *)
Definition roundQuot (rm : RoundingMode) (n : Z) (d : positive) : Z :=
  let q := Z.quot n (Zpos d) in
  let r := Z.abs (Z.rem n (Zpos d)) in
  let more :=
    match rm with
    | ROUND_DOWN => false
    | ROUND_HALF_UP => Zpos d <=? 2 * r
    | ROUND_HALF_EVEN => (Zpos d <? 2 * r) || ((Zpos d =? 2 * r) && Z.odd q)
    | ROUND_UP => negb (r =? 0)
    end in
  if more then q + Z.sgn n else q.

(** [x.round(dp, rm)] *)
Definition round (dp : nat) (rm : RoundingMode) (x : t) : t :=
  Qmake (roundQuot rm (Qnum x * Zpos (pow10 dp)) (Qden x)) (pow10 dp).

Definition ofZ (z : Z) : t := inject_Z z.
Definition add (x y : t) : t := Qplus x y.
Definition sub (x y : t) : t := Qminus x y.
Definition mul (x y : t) : t := Qmult x y.
Definition abs (x : t) : t := Qabs x.
Definition lt (x y : t) : bool := negb (Qle_bool y x).
Definition gt (x y : t) : bool := negb (Qle_bool x y).

(** [new Big(n)] for a JavaScript number [n]: NaN and the infinities are
    refused. *)
Definition ofNumber (n : option Q) : result t :=
  match n with
  | Some q => Ok q
  | None => Throw BigInvalidNumber
  end.

(** [x.div(y)] *)
Definition div (x y : t) : result t :=
  if Qeq_bool y 0 then Throw BigDivisionByZero
  else Ok (round DP RM (Qdiv x y)).

End Big.

(** JavaScript [a / b] on numbers: no finite result when [b] is zero. The
    quotient is the exact one; the code's is its binary64 rounding, the same
    number when [a], [b] and [a / b] are whole. *)
Definition Number_div (a b : Q) : option Q :=
  if Qeq_bool b 0 then None else Some (Qdiv a b).

(** ** moment.js: instants and durations *)

Definition Moment := Z.
Definition Duration := Z.

Inductive unitOfTime : Type := Milliseconds | Seconds | Minutes | Hours | Days.

Definition unitMs (u : unitOfTime) : Z :=
  match u with
  | Milliseconds => 1
  | Seconds => 1000
  | Minutes => 60000
  | Hours => 3600000
  | Days => 86400000
  end.

(** [moment.duration(n, unit)] *)
Definition duration (n : Z) (u : unitOfTime) : Duration := n * unitMs u.

Definition asSeconds (d : Duration) : Q := d # 1000.
Definition asMinutes (d : Duration) : Q := d # 60000.
Definition asHours (d : Duration) : Q := d # 3600000.
Definition asDays (d : Duration) : Q := d # 86400000.

(** [m.startOf(unit)] and [m.endOf(unit)]; moment.js performs both in place. *)
Definition Moment_startOf (m : Moment) (u : unitOfTime) : Moment :=
  m - m mod unitMs u.
Definition Moment_endOf (m : Moment) (u : unitOfTime) : Moment :=
  m + unitMs u - m mod unitMs u - 1.

(** [m.isSame(other, unit)] *)
Definition Moment_isSame (m other : Moment) (u : unitOfTime) : bool :=
  (Moment_startOf m u <=? other) && (other <=? Moment_endOf m u).

(** moment.js rounds a fractional day count half away from zero. *)
Definition absRound (x : Q) : Z := Big.roundQuot Big.ROUND_HALF_UP (Qnum x) (Qden x).

(** The first argument of [add]/[subtract]: a duration, or a number with
    the unit ["days"]. *)
Inductive DurationInput : Type :=
| OfDuration (d : Duration)
| OfDays (n : Big.t).

Definition inputMs (a : DurationInput) : Z :=
  match a with
  | OfDuration d => d
  | OfDays n => absRound n * unitMs Days
  end.

(** [moment.utc] of an ISO-8601 date and time: days since the epoch by the
    proleptic Gregorian calendar. *)
Definition daysFromCivil (y m d : Z) : Z :=
  let y' := if m <=? 2 then y - 1 else y in
  let era := y' / 400 in
  let yoe := y' - era * 400 in
  let doy := (153 * (if m <=? 2 then m + 9 else m - 3) + 2) / 5 + d - 1 in
  let doe := yoe * 365 + yoe / 4 - yoe / 100 + doy in
  era * 146097 + doe - 719468.

Definition utc (y mo d h mi s ms : Z) : Moment :=
  (((daysFromCivil y mo d * 24 + h) * 60 + mi) * 60 + s) * 1000 + ms.

(** ** Constraints *)

Module IBusinessTimeConstraint.
Record t : Type := Build { isBusinessTime : Moment -> bool }.
End IBusinessTimeConstraint.
Definition Constraint : Type := IBusinessTimeConstraint.t.

(** [m.hour()] and [m.day()] (0 is Sunday) of a UTC moment. *)
Definition Moment_hour (m : Moment) : Z := (m mod 86400000) / 3600000.
Definition Moment_day (m : Moment) : Z := (m / 86400000 + 4) mod 7.

(** Modelled from the spec: [constraint/BetweenHoursOfDay.ts] is not among the
    sources; the spec describes it as the hour-of-day window
    [HourWindow(9,17)], hours 09:00-17:00. *)
Definition BetweenHoursOfDay (min max : Z) : Constraint :=
  IBusinessTimeConstraint.Build
    (fun time => (min <=? Moment_hour time) && (Moment_hour time <? max)).

(** Modelled from the spec: [constraint/WeekDays.ts] is not among the sources;
    the spec describes it as the weekday set Monday to Friday. *)
Definition WeekDays : Constraint :=
  IBusinessTimeConstraint.Build
    (fun time => (1 <=? Moment_day time) && (Moment_day time <=? 5)).

(** ** The engine *)

Record BusinessTime : Type := mkBusinessTime {
  moment : Moment;
  precision : Duration;
  constraints : list Constraint;
  lengthOfBusinessDayCached : option Duration
}.

Definition defaultConstraints : list Constraint :=
  [BetweenHoursOfDay 9 17; WeekDays].

(** [new BusinessTime(input, format, precision, constraints)] with the last
    two arguments optional. *)
Definition new_BusinessTime (input : Moment) (precision : option Duration)
    (constraints : option (list Constraint)) : BusinessTime :=
  {| moment := input;
     precision := match precision with
                  | Some p => p
                  | None => duration 1 Hours
                  end;
     constraints := match constraints with
                    | Some cs => cs
                    | None => defaultConstraints
                    end;
     lengthOfBusinessDayCached := None |}.

Definition getMoment (this : BusinessTime) : Moment := moment this.

Definition atMoment (this : BusinessTime) (time : Moment) : BusinessTime :=
  new_BusinessTime time (Some (precision this)) (Some (constraints this)).

Definition clone (this : BusinessTime) : BusinessTime :=
  new_BusinessTime (moment this) (Some (precision this)) (Some (constraints this)).

(** The [for] loop of [isBusinessTime]. *)
Fixpoint isBusinessTime_for (cs : list Constraint) (time : Moment) : bool :=
  match cs with
  | [] => true
  | constraint :: rest =>
      if negb (IBusinessTimeConstraint.isBusinessTime constraint time)
      then false
      else isBusinessTime_for rest time
  end.

Definition isBusinessTime (this : BusinessTime) : bool :=
  isBusinessTime_for (constraints this) (getMoment this).

Definition add (this : BusinessTime) (amount : DurationInput) : BusinessTime :=
  atMoment this (moment this + inputMs amount).

Definition subtract (this : BusinessTime) (amount : DurationInput) : BusinessTime :=
  atMoment this (moment this - inputMs amount).

Definition isAfter (this : BusinessTime) (inp : Moment) : bool := inp <? moment this.
Definition isBefore (this : BusinessTime) (inp : Moment) : bool := moment this <? inp.

(** ** Methods that may mutate the receiver

    [M A] is a call on a receiver: it yields an outcome and the receiver as
    the call leaves it, also when the call throws. *)

Definition M (A : Type) : Type := BusinessTime -> result A * BusinessTime.

Definition ret {A} (a : A) : M A := fun this => (Ok a, this).

Definition lift {A} (r : result A) : M A := fun this => (r, this).

Definition bind {A B} (m : M A) (k : A -> M B) : M B :=
  fun this =>
    match m this with
    | (Ok a, this') => k a this'
    | (Throw e, this') => (Throw e, this')
    | (OutOfFuel, this') => (OutOfFuel, this')
    end.

Definition getThis : M BusinessTime := fun this => (Ok this, this).

(** A call on another object [obj]: its outcome together with [obj] as the
    call leaves it; the receiver is not touched. *)
Definition callOn {A} (obj : BusinessTime) (m : M A) : M (A * BusinessTime) :=
  fun this =>
    match m obj with
    | (Ok a, obj') => (Ok (a, obj'), this)
    | (Throw e, _) => (Throw e, this)
    | (OutOfFuel, _) => (OutOfFuel, this)
    end.

Notation "x <- m ;; k" := (bind m (fun x => k))
  (at level 61, m at next level, right associativity).

Definition setMoment (this : BusinessTime) (m : Moment) : BusinessTime :=
  {| moment := m;
     precision := precision this;
     constraints := constraints this;
     lengthOfBusinessDayCached := lengthOfBusinessDayCached this |}.

Definition setCached (this : BusinessTime) (d : Duration) : BusinessTime :=
  {| moment := moment this;
     precision := precision this;
     constraints := constraints this;
     lengthOfBusinessDayCached := Some d |}.

(** [startOf] and [endOf] hand [this.moment] itself to moment.js, which
    moves it in place, and build the result from the moved moment. *)
Definition startOf (unit : unitOfTime) : M BusinessTime :=
  fun this =>
    let this' := setMoment this (Moment_startOf (moment this) unit) in
    (Ok (atMoment this' (moment this')), this').

Definition endOf (unit : unitOfTime) : M BusinessTime :=
  fun this =>
    let this' := setMoment this (Moment_endOf (moment this) unit) in
    (Ok (atMoment this' (moment this')), this').

(** *** diffInBusinessTime *)

(** The [while] loop of [diffInBusinessTime]; [precision] is the receiver's,
    [next] is the engine the loop steps. *)
Fixpoint diffInBusinessTime_while (fuel : nat) (precision : Duration)
    (end_ : Moment) (next : BusinessTime) (diff : Big.t) : result Big.t :=
  if isBefore next end_ then
    match fuel with
    | O => OutOfFuel
    | S fuel' =>
        let diff' := if isBusinessTime next then Big.add diff (Big.ofZ 1) else diff in
        diffInBusinessTime_while fuel' precision end_
          (add next (OfDuration precision)) diff'
    end
  else Ok diff.

(** [time] is given; the source takes the wall clock when it is omitted. *)
Definition diffInBusinessTime (fuel : nat) (this : BusinessTime)
    (time : Moment) (absolute : bool) : result Big.t :=
  if Moment_isSame time (getMoment this) Minutes then Ok (Big.ofZ 0)
  else
    let '(start, end_, sign) :=
      if isAfter this time
      then (time, moment this, Big.ofZ (if absolute then 1 else -1))
      else (moment this, time, Big.ofZ 1) in
    let next := new_BusinessTime start None None in
    result_map (fun diff => Big.mul diff sign)
      (diffInBusinessTime_while fuel (precision this) end_ next (Big.ofZ 0)).

(** [moment.duration(s, "seconds")]; the products below are whole numbers
    of milliseconds. *)
Definition secondsToDuration (s : Q) : Duration :=
  Big.roundQuot Big.ROUND_DOWN (Qnum s * 1000) (Qden s).

Definition diffBusiness (fuel : nat) (this : BusinessTime)
    (time : Moment) (absolute : bool) : result Duration :=
  result_map
    (fun diff => secondsToDuration (Big.mul diff (asSeconds (precision this))))
    (diffInBusinessTime fuel this time absolute).

(** *** Start and end of the business day *)

Fixpoint startOfBusinessDay_while (fuel : nat) (precision : Duration)
    (start : BusinessTime) : result BusinessTime :=
  if negb (isBusinessTime start) then
    match fuel with
    | O => OutOfFuel
    | S fuel' =>
        startOfBusinessDay_while fuel' precision (add start (OfDuration precision))
    end
  else Ok start.

Definition startOfBusinessDay (fuel : nat) : M BusinessTime :=
  start <- startOf Days ;;
  this <- getThis ;;
  lift (startOfBusinessDay_while fuel (precision this) start).

Fixpoint endOfBusinessDay_while (fuel : nat) (precision : Duration)
    (end_ : BusinessTime) : result BusinessTime :=
  if negb (isBusinessTime end_) then
    match fuel with
    | O => OutOfFuel
    | S fuel' =>
        endOfBusinessDay_while fuel' precision (subtract end_ (OfDuration precision))
    end
  else Ok end_.

Definition endOfBusinessDay (fuel : nat) : M BusinessTime :=
  end_ <- endOf Days ;;
  this <- getThis ;;
  lift (endOfBusinessDay_while fuel (precision this) end_).

(** *** Length of the business day *)

Definition setLengthOfBusinessDay (duration : Duration) : M BusinessTime :=
  fun this =>
    let this' := setCached this duration in
    if Qle_bool (asMinutes duration) 0 then (Throw ZeroLengthBusinessDay, this')
    else if negb (Qle_bool (asHours duration) 24) then
      (Throw (BusinessDayTooLong duration), this')
    else (Ok this', this').

Definition typicalDayDefault : Moment := utc 2018 5 23 0 0 0 0.

Definition determineLengthOfBusinessDay (fuel : nat)
    (typicalDay : option Moment) : M BusinessTime :=
  this <- getThis ;;
  let typicalDay := match typicalDay with
                    | Some d => d
                    | None => typicalDayDefault
                    end in
  let typicalBusinessDay := atMoment this typicalDay in
  s <- callOn typicalBusinessDay (startOfBusinessDay fuel) ;;
  let startOfBusinessDay := getMoment (fst s) in
  e <- callOn (snd s) (endOfBusinessDay fuel) ;;
  let endOfBusinessDay := getMoment (fst e) in
  lengthOfBusinessDay <-
    lift (diffBusiness fuel (atMoment this startOfBusinessDay)
            endOfBusinessDay true) ;;
  setLengthOfBusinessDay lengthOfBusinessDay.

Definition lengthOfBusinessDay (fuel : nat) : M Duration :=
  this <- getThis ;;
  match lengthOfBusinessDayCached this with
  | Some d => ret d
  | None =>
      _ <- determineLengthOfBusinessDay fuel None ;;
      this' <- getThis ;;
      match lengthOfBusinessDayCached this' with
      | Some d => ret d
      | None => lift (Throw TypeError)
      end
  end.

(** *** Differences in business days *)

Definition diffInPartialBusinessDays (fuel : nat) (time : Moment)
    (absolute : bool) : M Big.t :=
  this <- getThis ;;
  diff <- lift (diffInBusinessTime fuel this time absolute) ;;
  length <- lengthOfBusinessDay fuel ;;
  divisor <- lift (Big.ofNumber
               (Number_div (asSeconds length) (asSeconds (precision this)))) ;;
  lift (Big.div diff divisor).

Definition diffInBusinessDays (fuel : nat) (time : Moment)
    (absolute : bool) : M Big.t :=
  partial <- diffInPartialBusinessDays fuel time absolute ;;
  ret (Big.round 0 Big.ROUND_DOWN partial).

(** *** Adding and subtracting business days *)

(** [businessDays.round(0, 0)]: no decimal places, rounding mode 0. *)
Definition daysToJump (businessDays : Big.t) : Big.t :=
  Big.round 0 Big.ROUND_DOWN businessDays.

Fixpoint addBusinessDays_while (fuel : nat) (precision : Duration)
    (decrement businessDaysToAdd : Big.t) (next : BusinessTime)
    : result BusinessTime :=
  if Big.gt businessDaysToAdd (Big.ofZ 0) then
    match fuel with
    | O => OutOfFuel
    | S fuel' =>
        let businessDaysToAdd' :=
          if isBusinessTime next then Big.sub businessDaysToAdd decrement
          else businessDaysToAdd in
        addBusinessDays_while fuel' precision decrement businessDaysToAdd'
          (add next (OfDuration precision))
    end
  else Ok next.

Fixpoint subBusinessDays_while (fuel : nat) (precision : Duration)
    (decrement businessDaysToSub : Big.t) (prev : BusinessTime)
    : result BusinessTime :=
  if Big.gt businessDaysToSub (Big.ofZ 0) then
    match fuel with
    | O => OutOfFuel
    | S fuel' =>
        let prev' := subtract prev (OfDuration precision) in
        let businessDaysToSub' :=
          if isBusinessTime prev' then Big.sub businessDaysToSub decrement
          else businessDaysToSub in
        subBusinessDays_while fuel' precision decrement businessDaysToSub' prev'
    end
  else Ok prev.

(** [addBusinessDays] once the jump has landed on [next]: the residual is
    what the jump did not cover, and the loop steps it away. *)
Definition addBusinessDays_residual (fuel : nat) (businessDaysToAdd : Big.t)
    (next : BusinessTime) : M BusinessTime :=
  this <- getThis ;;
  covered <- diffInPartialBusinessDays fuel (getMoment next) true ;;
  let businessDaysToAdd := Big.sub businessDaysToAdd covered in
  precisionDays <- lift (Big.ofNumber (Some (asDays (precision this)))) ;;
  length <- lengthOfBusinessDay fuel ;;
  decrement <- lift (Big.div precisionDays (asDays length)) ;;
  lift (addBusinessDays_while fuel (precision this) decrement businessDaysToAdd next).

Definition subBusinessDays_residual (fuel : nat) (businessDaysToSub : Big.t)
    (prev : BusinessTime) : M BusinessTime :=
  this <- getThis ;;
  covered <- diffInPartialBusinessDays fuel (getMoment prev) true ;;
  let businessDaysToSub := Big.sub businessDaysToSub covered in
  precisionDays <- lift (Big.ofNumber (Some (asDays (precision this)))) ;;
  length <- lengthOfBusinessDay fuel ;;
  decrement <- lift (Big.div precisionDays (asDays length)) ;;
  lift (subBusinessDays_while fuel (precision this) decrement businessDaysToSub prev).

(** The two methods call each other on a negative count; each call spends
    one unit of fuel. *)
Fixpoint addBusinessDays (fuel : nat) (businessDays : Big.t) : M BusinessTime :=
  match fuel with
  | O => lift OutOfFuel
  | S fuel' =>
      if Big.lt businessDays (Big.ofZ 0)
      then subBusinessDays fuel' (Big.abs businessDays)
      else
        this <- getThis ;;
        let next := add this (OfDays (daysToJump businessDays)) in
        addBusinessDays_residual fuel' businessDays next
  end
with subBusinessDays (fuel : nat) (businessDays : Big.t) : M BusinessTime :=
  match fuel with
  | O => lift OutOfFuel
  | S fuel' =>
      if Big.lt businessDays (Big.ofZ 0)
      then addBusinessDays fuel' (Big.abs businessDays)
      else
        this <- getThis ;;
        let prev := subtract this (OfDays (daysToJump businessDays)) in
        subBusinessDays_residual fuel' businessDays prev
  end.

Definition addBusinessDay (fuel : nat) : M BusinessTime :=
  addBusinessDays fuel (Big.ofZ 1).

Definition subBusinessDay (fuel : nat) : M BusinessTime :=
  subBusinessDays fuel (Big.ofZ 1).

(** ** The specification's reading of two steps *)

(** The spec's stepping for [diffInBusinessTime]: step [x] from the start by
    the precision, test the engine's own [isBusinessTime] at [x] before
    each advance, count on true, until [x >= end]. *)
Fixpoint spec_countSteps (fuel : nat) (this : BusinessTime) (end_ x : Moment)
    (count : Big.t) : result Big.t :=
  if x <? end_ then
    match fuel with
    | O => OutOfFuel
    | S fuel' =>
        spec_countSteps fuel' this end_ (x + precision this)
          (if isBusinessTime (atMoment this x)
           then Big.add count (Big.ofZ 1) else count)
    end
  else Ok count.

Definition spec_diffInBusinessTime (fuel : nat) (this : BusinessTime)
    (time : Moment) (absolute : bool) : result Big.t :=
  if Moment_isSame time (getMoment this) Minutes then Ok (Big.ofZ 0)
  else
    let start := Z.min (moment this) time in
    let end_ := Z.max (moment this) time in
    let sign := if (time <? moment this) && negb absolute then -1 else 1 in
    result_map (fun count => Big.mul count (Big.ofZ sign))
      (spec_countSteps fuel this end_ start (Big.ofZ 0)).

(** The spec's [daysToJump]: nearest integer, ties away from zero. *)
Definition spec_daysToJump (businessDays : Big.t) : Big.t :=
  Big.round 0 Big.ROUND_HALF_UP businessDays.

(** Truncation towards zero, by floor and ceiling. *)
Definition Qtruncate (q : Q) : Z :=
  if Qle_bool 0 q then Qfloor q else Qceiling q.

(** ** Fuel order and the engines of the examples *)

(** [r] is [r'] unless it ran out of fuel. *)
Definition rle {A} (r r' : result A) : Prop := r = OutOfFuel \/ r = r'.

Definition mle {A} (m m' : M A) : Prop :=
  forall this, fst (m this) = OutOfFuel \/ m this = m' this.

(** Monday 2018-05-21T12:00:00Z with the constructor's defaults: one-hour
    precision, hours 09:00-17:00, Monday to Friday. *)
Definition monday12 : BusinessTime :=
  new_BusinessTime (utc 2018 5 21 12 0 0 0) None None.

(** Monday 2018-05-21T09:00:00Z with the constructor's defaults. *)
Definition monday9 : BusinessTime :=
  new_BusinessTime (utc 2018 5 21 9 0 0 0) None None.

(** Saturday 2018-05-26T09:00:00Z, one-hour precision, no constraint at all:
    every instant is business time for this engine. *)
Definition saturday9_unconstrained : BusinessTime :=
  new_BusinessTime (utc 2018 5 26 9 0 0 0) (Some (duration 1 Hours)) (Some []).

(** Tuesday 2018-05-22T13:00:00Z with the constructor's defaults. *)
Definition tuesday13 : BusinessTime :=
  new_BusinessTime (utc 2018 5 22 13 0 0 0) None None.

(** Monday 2018-05-21T09:00:00Z with the default constraints and a precision
    of 30 hours. *)
Definition monday9_30h : BusinessTime :=
  new_BusinessTime (utc 2018 5 21 9 0 0 0) (Some (duration 30 Hours)) None.

(** ** Notions used to state what the loops compute *)

(** The instants a loop visits: [start], [start + step], ... ([n] of them). *)
Definition stepInstants (start step : Z) (n : nat) : list Moment :=
  map (fun k => start + Z.of_nat k * step) (seq 0 n).

(** How many steps of [step] it takes from [start] to reach [end_]. *)
Definition stepsBetween (start end_ step : Z) : nat :=
  Z.to_nat ((end_ - start + step - 1) / step).

(** What the default constraints say of an instant. *)
Definition defaultIsBusinessTime (time : Moment) : bool :=
  isBusinessTime_for defaultConstraints time.

(** A call that leaves the receiver's instant, precision and constraints as
    it found them. *)
Definition keepsReceiver {A} (m : M A) : Prop :=
  forall (this : BusinessTime) (r : result A) (this' : BusinessTime),
    m this = (r, this') ->
    moment this' = moment this /\
    precision this' = precision this /\
    constraints this' = constraints this.

(** * Properties *)

(** ** More fuel never changes an outcome *)

Lemma rle_refl {A} (r : result A) : rle r r.
Proof. right; reflexivity. Qed.

Lemma mle_refl {A} (m : M A) : mle m m.
Proof. intros this; right; reflexivity. Qed.

Lemma result_map_rle {A B} (f : A -> B) (r r' : result A) :
  rle r r' -> rle (result_map f r) (result_map f r').
Proof. intros [-> | ->]; [left | right]; reflexivity. Qed.

Lemma lift_mle {A} (r r' : result A) : rle r r' -> mle (lift r) (lift r').
Proof. intros [-> | ->] this; [left | right]; reflexivity. Qed.

Lemma bind_mle {A B} (m m' : M A) (k k' : A -> M B) :
  mle m m' -> (forall a, mle (k a) (k' a)) -> mle (bind m k) (bind m' k').
Proof.
  intros Hm Hk this. unfold bind.
  destruct (Hm this) as [Hout | Heq].
  - left. destruct (m this) as [[a | e |] this']; simpl in Hout;
      try discriminate; reflexivity.
  - rewrite <- Heq. destruct (m this) as [[a | e |] this'].
    + apply Hk.
    + right; reflexivity.
    + left; reflexivity.
Qed.

Lemma callOn_mle {A} (obj : BusinessTime) (m m' : M A) :
  mle m m' -> mle (callOn obj m) (callOn obj m').
Proof.
  intros Hm this. unfold callOn.
  destruct (Hm obj) as [Hout | Heq].
  - left. destruct (m obj) as [[a | e |] obj']; simpl in Hout;
      try discriminate; reflexivity.
  - rewrite <- Heq. right; reflexivity.
Qed.

(** From an outcome reached with some fuel to the same outcome with more. *)
Lemma mle_settled {A} (m m' : M A) (this this' : BusinessTime) (r : result A) :
  mle m m' -> m this = (r, this') -> r <> OutOfFuel -> m' this = (r, this').
Proof.
  intros Hm Hrun Hr. destruct (Hm this) as [Hout | Heq].
  - rewrite Hrun in Hout. contradiction.
  - rewrite <- Heq. exact Hrun.
Qed.

Lemma rle_settled {A} (r r' x : result A) :
  rle r r' -> r = x -> x <> OutOfFuel -> r' = x.
Proof. intros [-> | ->] <- Hx; [contradiction | reflexivity]. Qed.

Section FuelMonotone.

Variables fuel fuel' : nat.
Hypothesis Hfuel : (fuel <= fuel')%nat.

Lemma diffInBusinessTime_while_mono precision end_ next diff :
  rle (diffInBusinessTime_while fuel precision end_ next diff)
      (diffInBusinessTime_while fuel' precision end_ next diff).
Proof.
  revert fuel' Hfuel next diff.
  induction fuel as [| n IH]; intros [| n'] Hle next diff; simpl;
    destruct (isBefore next end_); try (now left); try (now right);
    try lia.
  apply IH. lia.
Qed.

Lemma startOfBusinessDay_while_mono precision start :
  rle (startOfBusinessDay_while fuel precision start)
      (startOfBusinessDay_while fuel' precision start).
Proof.
  revert fuel' Hfuel start.
  induction fuel as [| n IH]; intros [| n'] Hle start; simpl;
    destruct (negb (isBusinessTime start)); try (now left); try (now right);
    try lia.
  apply IH. lia.
Qed.

Lemma endOfBusinessDay_while_mono precision end_ :
  rle (endOfBusinessDay_while fuel precision end_)
      (endOfBusinessDay_while fuel' precision end_).
Proof.
  revert fuel' Hfuel end_.
  induction fuel as [| n IH]; intros [| n'] Hle end_; simpl;
    destruct (negb (isBusinessTime end_)); try (now left); try (now right);
    try lia.
  apply IH. lia.
Qed.

Lemma addBusinessDays_while_mono precision decrement days next :
  rle (addBusinessDays_while fuel precision decrement days next)
      (addBusinessDays_while fuel' precision decrement days next).
Proof.
  revert fuel' Hfuel days next.
  induction fuel as [| n IH]; intros [| n'] Hle days next; simpl;
    destruct (Big.gt days (Big.ofZ 0)); try (now left); try (now right);
    try lia.
  apply IH. lia.
Qed.

Lemma subBusinessDays_while_mono precision decrement days prev :
  rle (subBusinessDays_while fuel precision decrement days prev)
      (subBusinessDays_while fuel' precision decrement days prev).
Proof.
  revert fuel' Hfuel days prev.
  induction fuel as [| n IH]; intros [| n'] Hle days prev; simpl;
    destruct (Big.gt days (Big.ofZ 0)); try (now left); try (now right);
    try lia.
  apply IH. lia.
Qed.

Lemma diffInBusinessTime_mono this time absolute :
  rle (diffInBusinessTime fuel this time absolute)
      (diffInBusinessTime fuel' this time absolute).
Proof.
  unfold diffInBusinessTime.
  destruct (Moment_isSame time (getMoment this) Minutes); [apply rle_refl |].
  destruct (isAfter this time); apply result_map_rle,
    diffInBusinessTime_while_mono.
Qed.

Lemma diffBusiness_mono this time absolute :
  rle (diffBusiness fuel this time absolute)
      (diffBusiness fuel' this time absolute).
Proof. apply result_map_rle, diffInBusinessTime_mono. Qed.

Lemma startOfBusinessDay_mono :
  mle (startOfBusinessDay fuel) (startOfBusinessDay fuel').
Proof.
  unfold startOfBusinessDay.
  apply bind_mle; [apply mle_refl | intros start].
  apply bind_mle; [apply mle_refl | intros this].
  apply lift_mle, startOfBusinessDay_while_mono.
Qed.

Lemma endOfBusinessDay_mono :
  mle (endOfBusinessDay fuel) (endOfBusinessDay fuel').
Proof.
  unfold endOfBusinessDay.
  apply bind_mle; [apply mle_refl | intros end_].
  apply bind_mle; [apply mle_refl | intros this].
  apply lift_mle, endOfBusinessDay_while_mono.
Qed.

Lemma determineLengthOfBusinessDay_mono typicalDay :
  mle (determineLengthOfBusinessDay fuel typicalDay)
      (determineLengthOfBusinessDay fuel' typicalDay).
Proof.
  unfold determineLengthOfBusinessDay.
  apply bind_mle; [apply mle_refl | intros this].
  apply bind_mle; [apply callOn_mle, startOfBusinessDay_mono | intros s].
  apply bind_mle; [apply callOn_mle, endOfBusinessDay_mono | intros e].
  apply bind_mle; [apply lift_mle, diffBusiness_mono | intros len].
  apply mle_refl.
Qed.

Lemma lengthOfBusinessDay_mono :
  mle (lengthOfBusinessDay fuel) (lengthOfBusinessDay fuel').
Proof.
  unfold lengthOfBusinessDay.
  apply bind_mle; [apply mle_refl | intros this].
  destruct (lengthOfBusinessDayCached this); [apply mle_refl |].
  apply bind_mle; [apply determineLengthOfBusinessDay_mono | intros _].
  apply mle_refl.
Qed.

Lemma diffInPartialBusinessDays_mono time absolute :
  mle (diffInPartialBusinessDays fuel time absolute)
      (diffInPartialBusinessDays fuel' time absolute).
Proof.
  unfold diffInPartialBusinessDays.
  apply bind_mle; [apply mle_refl | intros this].
  apply bind_mle; [apply lift_mle, diffInBusinessTime_mono | intros diff].
  apply bind_mle; [apply lengthOfBusinessDay_mono | intros len].
  apply mle_refl.
Qed.

Lemma diffInBusinessDays_mono time absolute :
  mle (diffInBusinessDays fuel time absolute)
      (diffInBusinessDays fuel' time absolute).
Proof.
  unfold diffInBusinessDays.
  apply bind_mle; [apply diffInPartialBusinessDays_mono | intros partial].
  apply mle_refl.
Qed.

Lemma addBusinessDays_residual_mono days next :
  mle (addBusinessDays_residual fuel days next)
      (addBusinessDays_residual fuel' days next).
Proof.
  unfold addBusinessDays_residual.
  apply bind_mle; [apply mle_refl | intros this].
  apply bind_mle; [apply diffInPartialBusinessDays_mono | intros covered].
  apply bind_mle; [apply mle_refl | intros precisionDays].
  apply bind_mle; [apply lengthOfBusinessDay_mono | intros len].
  apply bind_mle; [apply mle_refl | intros decrement].
  apply lift_mle, addBusinessDays_while_mono.
Qed.

Lemma subBusinessDays_residual_mono days prev :
  mle (subBusinessDays_residual fuel days prev)
      (subBusinessDays_residual fuel' days prev).
Proof.
  unfold subBusinessDays_residual.
  apply bind_mle; [apply mle_refl | intros this].
  apply bind_mle; [apply diffInPartialBusinessDays_mono | intros covered].
  apply bind_mle; [apply mle_refl | intros precisionDays].
  apply bind_mle; [apply lengthOfBusinessDay_mono | intros len].
  apply bind_mle; [apply mle_refl | intros decrement].
  apply lift_mle, subBusinessDays_while_mono.
Qed.

End FuelMonotone.

Lemma addBusinessDays_mono (fuel : nat) :
  forall fuel' days, (fuel <= fuel')%nat ->
    mle (addBusinessDays fuel days) (addBusinessDays fuel' days) /\
    mle (subBusinessDays fuel days) (subBusinessDays fuel' days).
Proof.
  induction fuel as [| n IH]; intros fuel' days Hle.
  - split; intros this; left; reflexivity.
  - destruct fuel' as [| n']; [lia |].
    assert (Hn : (n <= n')%nat) by lia.
    split; simpl; destruct (Big.lt days (Big.ofZ 0));
      try (apply IH; exact Hn);
      (apply bind_mle; [apply mle_refl | intros this]).
    + apply addBusinessDays_residual_mono; exact Hn.
    + apply subBusinessDays_residual_mono; exact Hn.
Qed.

(** ** Frame facts *)

Lemma isBusinessTime_for_forallb (cs : list Constraint) (time : Moment) :
  isBusinessTime_for cs time =
  forallb (fun c => IBusinessTimeConstraint.isBusinessTime c time) cs.
Proof.
  induction cs as [| c rest IH]; simpl; [reflexivity |].
  destruct (IBusinessTimeConstraint.isBusinessTime c time); simpl;
    [exact IH | reflexivity].
Qed.

Lemma atMoment_atMoment (this : BusinessTime) (t t' : Moment) :
  atMoment (atMoment this t) t' = atMoment this t'.
Proof. reflexivity. Qed.

Lemma atMoment_setMoment (this : BusinessTime) (t t' : Moment) :
  atMoment (setMoment this t) t' = atMoment this t'.
Proof. reflexivity. Qed.

Lemma atMoment_setCached (this : BusinessTime) (d : Duration) (t : Moment) :
  atMoment (setCached this d) t = atMoment this t.
Proof. reflexivity. Qed.

(** ** The length setter (C5, C10) *)

Lemma asMinutes_nonpositive (d : Duration) :
  Qle_bool (asMinutes d) 0 = (d <=? 0).
Proof.
  unfold Qle_bool, asMinutes; simpl.
  destruct (Z.leb_spec (d * 1) 0), (Z.leb_spec d 0); try reflexivity; lia.
Qed.

Lemma asHours_over_24 (d : Duration) :
  negb (Qle_bool (asHours d) 24) = (86400000 <? d).
Proof.
  unfold Qle_bool, asHours; simpl.
  destruct (Z.leb_spec (d * 1) 86400000), (Z.ltb_spec 86400000 d);
    try reflexivity; lia.
Qed.

Lemma setLengthOfBusinessDay_cases (this : BusinessTime) (d : Duration) :
  setLengthOfBusinessDay d this =
  (if d <=? 0 then Throw ZeroLengthBusinessDay
   else if 86400000 <? d then Throw (BusinessDayTooLong d)
   else Ok (setCached this d),
   setCached this d).
Proof.
  unfold setLengthOfBusinessDay.
  rewrite asMinutes_nonpositive, asHours_over_24.
  destruct (d <=? 0); [reflexivity |].
  destruct (86400000 <? d); reflexivity.
Qed.

(** [determineLengthOfBusinessDay] and [lengthOfBusinessDay] call by call. *)
Lemma determineLengthOfBusinessDay_unfold (fuel : nat) (this : BusinessTime) :
  determineLengthOfBusinessDay fuel None this =
  match startOfBusinessDay fuel (atMoment this typicalDayDefault) with
  | (Ok s, typicalBusinessDay') =>
      match endOfBusinessDay fuel typicalBusinessDay' with
      | (Ok e, _) =>
          match diffBusiness fuel (atMoment this (getMoment s)) (getMoment e) true with
          | Ok len => setLengthOfBusinessDay len this
          | Throw err => (Throw err, this)
          | OutOfFuel => (OutOfFuel, this)
          end
      | (Throw err, _) => (Throw err, this)
      | (OutOfFuel, _) => (OutOfFuel, this)
      end
  | (Throw err, _) => (Throw err, this)
  | (OutOfFuel, _) => (OutOfFuel, this)
  end.
Proof.
  unfold determineLengthOfBusinessDay, bind, getThis, callOn, lift.
  destruct (startOfBusinessDay fuel (atMoment this typicalDayDefault))
    as [[s | err |] typical']; try reflexivity.
  simpl fst; simpl snd.
  destruct (endOfBusinessDay fuel typical') as [[e | err |] typical''];
    reflexivity.
Qed.

Lemma lengthOfBusinessDay_unfold (fuel : nat) (this : BusinessTime) :
  lengthOfBusinessDay fuel this =
  match lengthOfBusinessDayCached this with
  | Some d => (Ok d, this)
  | None =>
      match determineLengthOfBusinessDay fuel None this with
      | (Ok _, this') =>
          match lengthOfBusinessDayCached this' with
          | Some d => (Ok d, this')
          | None => (Throw TypeError, this')
          end
      | (Throw err, this') => (Throw err, this')
      | (OutOfFuel, this') => (OutOfFuel, this')
      end
  end.
Proof.
  unfold lengthOfBusinessDay, bind, getThis, ret, lift.
  destruct (lengthOfBusinessDayCached this); [reflexivity |].
  destruct (determineLengthOfBusinessDay fuel None this) as [[r | err |] this'];
    try reflexivity.
  destruct (lengthOfBusinessDayCached this'); reflexivity.
Qed.

Lemma lengthOfBusinessDay_cached (fuel : nat) (this : BusinessTime) (d : Duration) :
  lengthOfBusinessDayCached this = Some d ->
  lengthOfBusinessDay fuel this = (Ok d, this).
Proof.
  intros Hc. rewrite lengthOfBusinessDay_unfold, Hc. reflexivity.
Qed.

(** C5: [setLengthOfBusinessDay(duration)] throws the zero-length error
    exactly when [duration <= 0], throws the over-24-hours error exactly
    when [duration > 24h], and succeeds exactly on (0, 24h]; on success it
    returns the receiver with the duration cached, and
    [lengthOfBusinessDay()] on it then returns that duration. *)
Theorem setLengthOfBusinessDay_validates (this : BusinessTime) (d : Duration)
    (fuel : nat) :
  (fst (setLengthOfBusinessDay d this) = Throw ZeroLengthBusinessDay <-> d <= 0) /\
  ((exists l, fst (setLengthOfBusinessDay d this) = Throw (BusinessDayTooLong l))
     <-> duration 24 Hours < d) /\
  (setLengthOfBusinessDay d this = (Ok (setCached this d), setCached this d)
     <-> 0 < d <= duration 24 Hours) /\
  lengthOfBusinessDayCached (setCached this d) = Some d /\
  lengthOfBusinessDay fuel (setCached this d) = (Ok d, setCached this d) /\
  moment (setCached this d) = moment this /\
  precision (setCached this d) = precision this /\
  constraints (setCached this d) = constraints this.
Proof.
  rewrite setLengthOfBusinessDay_cases.
  change (duration 24 Hours) with 86400000.
  assert (Hcached : lengthOfBusinessDay fuel (setCached this d)
                    = (Ok d, setCached this d))
    by (apply lengthOfBusinessDay_cached; reflexivity).
  assert (Hframe : lengthOfBusinessDayCached (setCached this d) = Some d /\
                   lengthOfBusinessDay fuel (setCached this d)
                   = (Ok d, setCached this d) /\
                   moment (setCached this d) = moment this /\
                   precision (setCached this d) = precision this /\
                   constraints (setCached this d) = constraints this)
    by (repeat split; exact Hcached).
  destruct (Z.leb_spec d 0) as [Hle | Hgt];
    [| destruct (Z.ltb_spec 86400000 d) as [Hlong | Hshort]]; simpl;
    (split; [| split; [| split; [| exact Hframe]]]).
  - split; [intros _; exact Hle | reflexivity].
  - split; [intros [l Hl]; discriminate Hl | lia].
  - split; [intros H; discriminate H | lia].
  - split; [intros H; discriminate H | lia].
  - split; [intros _; exact Hlong | intros _; exists d; reflexivity].
  - split; [intros H; discriminate H | lia].
  - split; [intros H; discriminate H | lia].
  - split; [intros [l Hl]; discriminate Hl | lia].
  - split; [intros _; lia | reflexivity].
Qed.

(** C10: when [setLengthOfBusinessDay] is given a duration outside
    (0, 24h], the duration is already in the cache when the error is
    thrown, and a later [lengthOfBusinessDay()] on the same engine returns
    it without recomputing. *)
Theorem setLengthOfBusinessDay_caches_before_throwing (this : BusinessTime)
    (d : Duration) (fuel : nat) :
  d <= 0 \/ duration 24 Hours < d ->
  exists err this',
    setLengthOfBusinessDay d this = (Throw err, this') /\
    lengthOfBusinessDayCached this' = Some d /\
    lengthOfBusinessDay fuel this' = (Ok d, this').
Proof.
  change (duration 24 Hours) with 86400000. intros Hd.
  rewrite setLengthOfBusinessDay_cases.
  destruct (Z.leb_spec d 0).
  - exists ZeroLengthBusinessDay, (setCached this d).
    split; [reflexivity | split; [reflexivity |]].
    apply lengthOfBusinessDay_cached. reflexivity.
  - destruct (Z.ltb_spec 86400000 d); [| lia].
    exists (BusinessDayTooLong d), (setCached this d).
    split; [reflexivity | split; [reflexivity |]].
    apply lengthOfBusinessDay_cached. reflexivity.
Qed.

Lemma setLengthOfBusinessDay_caches_before_throwing_witness :
  (0 <= 0 \/ duration 24 Hours < 0) /\
  exists err this',
    setLengthOfBusinessDay 0 (new_BusinessTime (utc 2018 5 21 12 0 0 0) None None)
      = (Throw err, this') /\
    lengthOfBusinessDayCached this' = Some 0 /\
    lengthOfBusinessDay 0 this' = (Ok 0, this').
Proof.
  split.
  - left. lia.
  - apply (setLengthOfBusinessDay_caches_before_throwing
             (new_BusinessTime (utc 2018 5 21 12 0 0 0) None None) 0 0%nat).
    left. lia.
Defined.

(** ** Start and end of the business day (C2, C6) *)

Lemma startOf_frame (unit : unitOfTime) (this : BusinessTime) :
  precision (snd (startOf unit this)) = precision this /\
  constraints (snd (startOf unit this)) = constraints this /\
  lengthOfBusinessDayCached (snd (startOf unit this))
    = lengthOfBusinessDayCached this.
Proof. repeat split. Qed.

Lemma endOf_frame (unit : unitOfTime) (this : BusinessTime) :
  precision (snd (endOf unit this)) = precision this /\
  constraints (snd (endOf unit this)) = constraints this /\
  lengthOfBusinessDayCached (snd (endOf unit this))
    = lengthOfBusinessDayCached this.
Proof. repeat split. Qed.

(** [add], [subtract] and [clone] work on a copy of the moment: they are
    functions of the receiver and carry its precision and constraints. *)
Lemma add_carries (this : BusinessTime) (amount : DurationInput) :
  precision (add this amount) = precision this /\
  constraints (add this amount) = constraints this /\
  precision (subtract this amount) = precision this /\
  constraints (subtract this amount) = constraints this /\
  precision (clone this) = precision this /\
  constraints (clone this) = constraints this /\
  moment (clone this) = moment this.
Proof. repeat split. Qed.

(** C2: [startOf], [endOf], [startOfBusinessDay] and [endOfBusinessDay]
    leave the receiver at another instant than they found it: on the engine
    at Monday 12:00 the receiver ends at 00:00:00.000, respectively
    23:59:59.999, of that day. *)
Theorem startOf_endOf_move_the_receiver :
  moment monday12 = utc 2018 5 21 12 0 0 0 /\
  moment (snd (startOf Days monday12)) = utc 2018 5 21 0 0 0 0 /\
  moment (snd (endOf Days monday12)) = utc 2018 5 21 23 59 59 999 /\
  moment (snd (startOfBusinessDay 9 monday12)) = utc 2018 5 21 0 0 0 0 /\
  moment (snd (endOfBusinessDay 7 monday12)) = utc 2018 5 21 23 59 59 999 /\
  moment (snd (startOf Days monday12)) <> moment monday12 /\
  moment (snd (endOf Days monday12)) <> moment monday12.
Proof.
  repeat split; try reflexivity; vm_compute; discriminate.
Qed.

Lemma startOfBusinessDay_monday12 (fuel : nat) :
  startOfBusinessDay (9 + fuel) monday12
  = (Ok (atMoment monday12 (utc 2018 5 21 9 0 0 0)),
     setMoment monday12 (utc 2018 5 21 0 0 0 0)).
Proof.
  apply (mle_settled (startOfBusinessDay 9)).
  - apply startOfBusinessDay_mono. lia.
  - reflexivity.
  - discriminate.
Qed.

(** The receiver may be anywhere in the day: the walk starts from the end
    of the day. *)
Lemma endOfBusinessDay_monday12 (fuel : nat) (this : BusinessTime) :
  this = monday12 \/ this = setMoment monday12 (utc 2018 5 21 0 0 0 0) ->
  endOfBusinessDay (7 + fuel) this
  = (Ok (atMoment monday12 (utc 2018 5 21 16 59 59 999)),
     setMoment monday12 (utc 2018 5 21 23 59 59 999)).
Proof.
  intros [-> | ->]; apply (mle_settled (endOfBusinessDay 7));
    try (apply endOfBusinessDay_mono; lia); try reflexivity; discriminate.
Qed.

(** C6, as the code has it: on Monday 2018-05-21T12:00:00Z with the default
    constraints and one-hour precision, [startOfBusinessDay()] is
    2018-05-21T09:00:00Z and [endOfBusinessDay()] is
    2018-05-21T16:59:59.999Z, also when it is called after
    [startOfBusinessDay()] has moved the receiver. *)
Theorem start_and_end_of_business_day_monday (fuel : nat) :
  startOfBusinessDay (9 + fuel) monday12
    = (Ok (atMoment monday12 (utc 2018 5 21 9 0 0 0)),
       setMoment monday12 (utc 2018 5 21 0 0 0 0)) /\
  endOfBusinessDay (7 + fuel) monday12
    = (Ok (atMoment monday12 (utc 2018 5 21 16 59 59 999)),
       setMoment monday12 (utc 2018 5 21 23 59 59 999)) /\
  endOfBusinessDay (7 + fuel) (setMoment monday12 (utc 2018 5 21 0 0 0 0))
    = (Ok (atMoment monday12 (utc 2018 5 21 16 59 59 999)),
       setMoment monday12 (utc 2018 5 21 23 59 59 999)) /\
  getMoment (atMoment monday12 (utc 2018 5 21 16 59 59 999))
    = utc 2018 5 21 17 0 0 0 - 1.
Proof.
  split; [apply startOfBusinessDay_monday12 |].
  split; [apply endOfBusinessDay_monday12; left; reflexivity |].
  split; [apply endOfBusinessDay_monday12; right; reflexivity |].
  reflexivity.
Qed.

(** C6 as stated fails: with no amount of fuel does [endOfBusinessDay()]
    return the instant 2018-05-21T16:00:00Z. *)
Lemma endOfBusinessDay_monday_is_not_16_00 :
  ~ (exists fuel,
       result_map getMoment (fst (endOfBusinessDay fuel monday12))
       = Ok (utc 2018 5 21 16 0 0 0)).
Proof.
  intros [fuel H].
  assert (Hmore : (fuel <= 7 + fuel)%nat) by lia.
  destruct (endOfBusinessDay_mono fuel (7 + fuel) Hmore monday12) as [Hout | Heq].
  - rewrite Hout in H. discriminate H.
  - rewrite Heq, (endOfBusinessDay_monday12 fuel monday12) in H
      by (left; reflexivity).
    vm_compute in H. discriminate H.
Qed.

(** ** The lazily determined length (C7) *)

(** C7: for every engine with the default constraints, one-hour precision
    and an empty cache, [lengthOfBusinessDay()] is 8 hours and leaves it in
    the cache; it is the [diffBusiness] between the [startOfBusinessDay] and
    the [endOfBusinessDay] of a temporary engine at the reference date
    2018-05-23. *)
Theorem lengthOfBusinessDay_default_is_8_hours (m : Moment) (fuel : nat) :
  let this := mkBusinessTime m (duration 1 Hours) defaultConstraints None in
  let typicalBusinessDay := atMoment this (utc 2018 5 23 0 0 0 0) in
  exists s typicalBusinessDay' e typicalBusinessDay'',
    startOfBusinessDay (9 + fuel) typicalBusinessDay = (Ok s, typicalBusinessDay') /\
    endOfBusinessDay (9 + fuel) typicalBusinessDay' = (Ok e, typicalBusinessDay'') /\
    getMoment s = utc 2018 5 23 9 0 0 0 /\
    getMoment e = utc 2018 5 23 16 59 59 999 /\
    diffBusiness (9 + fuel) (atMoment this (getMoment s)) (getMoment e) true
      = Ok (duration 8 Hours) /\
    determineLengthOfBusinessDay (9 + fuel) None this
      = setLengthOfBusinessDay (duration 8 Hours) this /\
    lengthOfBusinessDay (9 + fuel) this
      = (Ok (duration 8 Hours), setCached this (duration 8 Hours)).
Proof.
  intros this typicalBusinessDay.
  assert (Hfuel : (9 <= 9 + fuel)%nat) by lia.
  exists (atMoment this (utc 2018 5 23 9 0 0 0)),
         (setMoment typicalBusinessDay (utc 2018 5 23 0 0 0 0)),
         (atMoment this (utc 2018 5 23 16 59 59 999)),
         (setMoment typicalBusinessDay (utc 2018 5 23 23 59 59 999)).
  split; [| split; [| split; [| split; [| split; [| split]]]]].
  - apply (mle_settled (startOfBusinessDay 9));
      [apply startOfBusinessDay_mono; exact Hfuel | reflexivity | discriminate].
  - apply (mle_settled (endOfBusinessDay 9));
      [apply endOfBusinessDay_mono; exact Hfuel | reflexivity | discriminate].
  - reflexivity.
  - reflexivity.
  - eapply rle_settled;
      [apply diffBusiness_mono; exact Hfuel | reflexivity | discriminate].
  - apply (mle_settled (determineLengthOfBusinessDay 9 None));
      [apply determineLengthOfBusinessDay_mono; exact Hfuel | reflexivity
      | discriminate].
  - apply (mle_settled (lengthOfBusinessDay 9));
      [apply lengthOfBusinessDay_mono; exact Hfuel | reflexivity | discriminate].
Qed.

(** ** Which constraints [diffInBusinessTime] tests (C1) *)

Lemma spec_countSteps_mono (fuel fuel' : nat) (this : BusinessTime)
    (end_ x : Moment) (count : Big.t) :
  (fuel <= fuel')%nat ->
  rle (spec_countSteps fuel this end_ x count)
      (spec_countSteps fuel' this end_ x count).
Proof.
  revert fuel' x count.
  induction fuel as [| n IH]; intros [| n'] x count Hle; simpl;
    destruct (x <? end_); try (now left); try (now right); try lia.
  apply IH. lia.
Qed.

Lemma spec_diffInBusinessTime_mono (fuel fuel' : nat) (this : BusinessTime)
    (time : Moment) (absolute : bool) :
  (fuel <= fuel')%nat ->
  rle (spec_diffInBusinessTime fuel this time absolute)
      (spec_diffInBusinessTime fuel' this time absolute).
Proof.
  intros Hle. unfold spec_diffInBusinessTime.
  destruct (Moment_isSame time (getMoment this) Minutes); [apply rle_refl |].
  apply result_map_rle, spec_countSteps_mono, Hle.
Qed.

(** The loop of [diffInBusinessTime] tests the constraints of the engine it
    steps, whatever the receiver's are. *)
Lemma diffInBusinessTime_while_counts (fuel : nat) (that : BusinessTime)
    (end_ : Moment) :
  forall (next : BusinessTime) (diff : Big.t),
    constraints next = constraints that ->
    diffInBusinessTime_while fuel (precision that) end_ next diff
    = spec_countSteps fuel that end_ (moment next) diff.
Proof.
  induction fuel as [| n IH]; intros next diff Hcs; simpl;
    unfold isBefore; destruct (moment next <? end_); try reflexivity.
  rewrite IH by exact Hcs.
  unfold isBusinessTime, getMoment; simpl. rewrite Hcs. reflexivity.
Qed.

(** What [diffInBusinessTime] computes: the spec's stepping, for an engine
    at the same instant and with the same precision that has the
    constructor's default constraints. *)
Lemma diffInBusinessTime_steps_default_constraints (fuel : nat)
    (this : BusinessTime) (time : Moment) (absolute : bool) :
  diffInBusinessTime fuel this time absolute
  = spec_diffInBusinessTime fuel
      (new_BusinessTime (moment this) (Some (precision this)) None)
      time absolute.
Proof.
  unfold diffInBusinessTime, spec_diffInBusinessTime, getMoment; simpl.
  destruct (Moment_isSame time (moment this) Minutes); [reflexivity |].
  unfold isAfter.
  set (that := new_BusinessTime (moment this) (Some (precision this)) None).
  destruct (Z.ltb_spec time (moment this)) as [Hlt | Hge].
  - rewrite Z.min_r, Z.max_l by lia.
    rewrite (diffInBusinessTime_while_counts fuel that) by reflexivity.
    destruct absolute; reflexivity.
  - rewrite Z.min_l, Z.max_r by lia.
    rewrite (diffInBusinessTime_while_counts fuel that) by reflexivity.
    reflexivity.
Qed.

Lemma spec_countSteps_ext (fuel : nat) (this that : BusinessTime)
    (end_ : Moment) :
  precision this = precision that ->
  constraints this = constraints that ->
  forall x count,
    spec_countSteps fuel this end_ x count
    = spec_countSteps fuel that end_ x count.
Proof.
  intros Hp Hcs.
  induction fuel as [| n IH]; intros x count; simpl;
    destruct (x <? end_); try reflexivity.
  rewrite IH, Hp. unfold isBusinessTime; simpl. rewrite Hcs. reflexivity.
Qed.

(** On an engine whose constraints are the default ones the two agree. *)
Lemma diffInBusinessTime_on_default_constraints (fuel : nat)
    (this : BusinessTime) (time : Moment) (absolute : bool) :
  constraints this = defaultConstraints ->
  diffInBusinessTime fuel this time absolute
  = spec_diffInBusinessTime fuel this time absolute.
Proof.
  intros Hcs. rewrite diffInBusinessTime_steps_default_constraints.
  unfold spec_diffInBusinessTime, getMoment; simpl.
  destruct (Moment_isSame time (moment this) Minutes); [reflexivity |].
  f_equal. apply spec_countSteps_ext; [reflexivity | symmetry; exact Hcs].
Qed.

(** C1: on an engine with an empty constraint list, for which every
    instant is business time, [diffInBusinessTime] from Saturday 09:00 to
    Saturday 12:00 is 0, where stepping with the engine's own
    [isBusinessTime] counts 3: the loop tests the default constraints. *)
Theorem diffInBusinessTime_ignores_own_constraints :
  (forall t, isBusinessTime (atMoment saturday9_unconstrained t) = true) /\
  (forall fuel,
     diffInBusinessTime (3 + fuel) saturday9_unconstrained
       (utc 2018 5 26 12 0 0 0) true = Ok (Big.ofZ 0)) /\
  (forall fuel,
     spec_diffInBusinessTime (3 + fuel) saturday9_unconstrained
       (utc 2018 5 26 12 0 0 0) true = Ok (Big.ofZ 3)).
Proof.
  split; [| split].
  - intros t. reflexivity.
  - intros fuel. eapply rle_settled;
      [apply (diffInBusinessTime_mono 3); lia | vm_compute; reflexivity
      | discriminate].
  - intros fuel. eapply rle_settled;
      [apply (spec_diffInBusinessTime_mono 3); lia | vm_compute; reflexivity
      | discriminate].
Qed.

(** ** Rounding (C3, C4) *)



Lemma round_down_truncates (q : Big.t) :
  Big.round 0 Big.ROUND_DOWN q = inject_Z (Qtruncate q).
Proof.
  destruct q as [n d].
  unfold Big.round, Big.roundQuot, Qtruncate, Qle_bool, Qceiling, Qfloor,
    inject_Z; simpl.
  rewrite Z.mul_1_r. f_equal.
  destruct (Z.leb_spec 0 n) as [Hpos | Hneg].
  - apply Z.quot_div_nonneg; lia.
  - rewrite <- (Z.opp_involutive n) at 1.
    rewrite Z.quot_opp_l by discriminate.
    rewrite Z.quot_div_nonneg by lia. reflexivity.
Qed.

Lemma round_down_floor (q : Big.t) :
  (0 <= q)%Q -> Big.round 0 Big.ROUND_DOWN q = inject_Z (Qfloor q).
Proof.
  intros Hq. rewrite round_down_truncates. unfold Qtruncate.
  apply Qle_bool_iff in Hq. rewrite Hq. reflexivity.
Qed.

Lemma absRound_inject_Z (z : Z) : absRound (inject_Z z) = z.
Proof.
  unfold absRound, Big.roundQuot; simpl.
  rewrite Z.quot_1_r, Z.rem_1_r. reflexivity.
Qed.

(** C3 as stated fails: for 2.5 business days [daysToJump] is 2, not the
    nearest integer with ties away from zero, and the jump from Monday
    09:00 lands on Wednesday 09:00, not on Thursday. *)
Lemma daysToJump_of_two_and_a_half :
  ~ (daysToJump (5 # 2) == spec_daysToJump (5 # 2))%Q /\
  (daysToJump (5 # 2) == 2)%Q /\
  (spec_daysToJump (5 # 2) == 3)%Q /\
  getMoment (add monday9 (OfDays (daysToJump (5 # 2)))) = utc 2018 5 23 9 0 0 0 /\
  getMoment (subtract monday9 (OfDays (daysToJump (5 # 2))))
    = utc 2018 5 19 9 0 0 0.
Proof.
  repeat split; try reflexivity. vm_compute. discriminate.
Qed.

(** On a count that is not negative both methods go through the jump. *)
Lemma jump_then_residual (fuel : nat) (n : Big.t) (this : BusinessTime) :
  (0 <= n)%Q ->
  addBusinessDays (S fuel) n this
    = addBusinessDays_residual fuel n
        (atMoment this (moment this + Qfloor n * unitMs Days)) this /\
  subBusinessDays (S fuel) n this
    = subBusinessDays_residual fuel n
        (atMoment this (moment this - Qfloor n * unitMs Days)) this.
Proof.
  intros Hn.
  assert (Hjump : daysToJump n = inject_Z (Qfloor n))
    by (apply round_down_floor; exact Hn).
  assert (Hsign : Big.lt n (Big.ofZ 0) = false).
  { unfold Big.lt. apply Qle_bool_iff in Hn.
    change (Big.ofZ 0) with 0%Q. rewrite Hn. reflexivity. }
  split; simpl; rewrite Hsign; unfold bind at 1, getThis;
    unfold add, subtract, inputMs; rewrite Hjump, absRound_inject_Z;
    reflexivity.
Qed.

(** C3, as the code has it: for every business-day count [n >= 0],
    [daysToJump] is [n] truncated to its integer part, and
    [addBusinessDays(n)] and [subBusinessDays(n)] correct by the residual
    from the engine that many whole calendar days after, respectively
    before, the receiver. *)
Theorem addBusinessDays_jumps_whole_days (fuel : nat) (n : Big.t)
    (this : BusinessTime) :
  (0 <= n)%Q ->
  daysToJump n = inject_Z (Qfloor n) /\
  addBusinessDays (S fuel) n this
    = addBusinessDays_residual fuel n
        (atMoment this (moment this + Qfloor n * unitMs Days)) this /\
  subBusinessDays (S fuel) n this
    = subBusinessDays_residual fuel n
        (atMoment this (moment this - Qfloor n * unitMs Days)) this.
Proof.
  intros Hn. split.
  - apply round_down_floor. exact Hn.
  - apply jump_then_residual. exact Hn.
Qed.

Lemma addBusinessDays_jumps_whole_days_witness :
  (0 <= 5 # 2)%Q /\
  daysToJump (5 # 2) = inject_Z (Qfloor (5 # 2)) /\
  addBusinessDays 1 (5 # 2) monday9
    = addBusinessDays_residual 0 (5 # 2)
        (atMoment monday9 (moment monday9 + Qfloor (5 # 2) * unitMs Days))
        monday9 /\
  subBusinessDays 1 (5 # 2) monday9
    = subBusinessDays_residual 0 (5 # 2)
        (atMoment monday9 (moment monday9 - Qfloor (5 # 2) * unitMs Days))
        monday9.
Proof.
  split.
  - unfold Qle; simpl; lia.
  - apply (addBusinessDays_jumps_whole_days 0 (5 # 2) monday9).
    unfold Qle; simpl; lia.
Defined.

(** Adding 2.5 business days to Monday 09:00 ends on Wednesday 13:00: two
    whole days, then four business hours. *)
Example addBusinessDays_two_and_a_half (fuel : nat) :
  result_map getMoment (fst (addBusinessDays (60 + fuel) (5 # 2) monday9))
  = Ok (utc 2018 5 23 13 0 0 0).
Proof.
  assert (Hrun : result_map getMoment (fst (addBusinessDays 60 (5 # 2) monday9))
                 = Ok (utc 2018 5 23 13 0 0 0)) by (vm_compute; reflexivity).
  assert (Hle : (60 <= 60 + fuel)%nat) by lia.
  destruct (addBusinessDays_mono 60 (60 + fuel) (5 # 2) Hle) as [Hadd _].
  destruct (Hadd monday9) as [Hout | Heq].
  - rewrite Hout in Hrun. discriminate Hrun.
  - rewrite <- Heq. exact Hrun.
Qed.

(** The spec's two scenarios for whole days: Monday 09:00 plus one business
    day is Tuesday 09:00, and Friday 16:00 plus one business day is Monday
    16:00. *)
Example addBusinessDay_scenarios :
  result_map getMoment (fst (addBusinessDay 60 monday9))
    = Ok (utc 2018 5 22 9 0 0 0) /\
  result_map getMoment
    (fst (addBusinessDays 60 (Big.ofZ 1)
            (new_BusinessTime (utc 2018 5 25 16 0 0 0) None None)))
    = Ok (utc 2018 5 28 16 0 0 0).
Proof. split; vm_compute; reflexivity. Qed.

(** C4 as stated fails: from Monday 09:00 to Tuesday 13:00 the partial
    difference is 1.5 business days and [diffInBusinessDays] is 1, where
    rounding to nearest with ties away from zero gives 2. *)
Lemma diffInBusinessDays_of_one_and_a_half :
  fst (diffInBusinessDays 40 (utc 2018 5 22 13 0 0 0) true monday9)
  <> result_map (Big.round 0 Big.ROUND_HALF_UP)
       (fst (diffInPartialBusinessDays 40 (utc 2018 5 22 13 0 0 0) true monday9)).
Proof. vm_compute. discriminate. Qed.

Example diffInPartialBusinessDays_of_one_and_a_half :
  result_map Qred
    (fst (diffInPartialBusinessDays 40 (utc 2018 5 22 13 0 0 0) true monday9))
  = Ok (3 # 2)%Q /\
  fst (diffInBusinessDays 40 (utc 2018 5 22 13 0 0 0) true monday9) = Ok 1%Q.
Proof. split; vm_compute; reflexivity. Qed.

(** C4, as the code has it: for every pair of instants and both values of
    the absolute flag, [diffInBusinessDays] is [diffInPartialBusinessDays]
    truncated towards zero to an integer; the two leave the receiver in the
    same state. *)
Theorem diffInBusinessDays_truncates (fuel : nat) (time : Moment)
    (absolute : bool) (this : BusinessTime) :
  diffInBusinessDays fuel time absolute this
  = (result_map (fun partial => inject_Z (Qtruncate partial))
       (fst (diffInPartialBusinessDays fuel time absolute this)),
     snd (diffInPartialBusinessDays fuel time absolute this)).
Proof.
  unfold diffInBusinessDays, bind, ret.
  destruct (diffInPartialBusinessDays fuel time absolute this)
    as [[partial | err |] this']; simpl; try reflexivity.
  rewrite round_down_truncates. reflexivity.
Qed.

(** ** Symmetry of the differences (C9) *)

Lemma unitMs_pos (u : unitOfTime) : 0 < unitMs u.
Proof. destruct u; reflexivity. Qed.

Lemma Moment_isSame_div (m other : Moment) (u : unitOfTime) :
  Moment_isSame m other u = (m / unitMs u =? other / unitMs u).
Proof.
  unfold Moment_isSame, Moment_startOf, Moment_endOf.
  pose proof (unitMs_pos u) as Hk.
  set (k := unitMs u) in *.
  pose proof (Z.div_mod m k) as Hm.
  pose proof (Z.mod_pos_bound m k Hk) as Hmb.
  pose proof (Z.div_mod other k) as Ho.
  pose proof (Z.mod_pos_bound other k Hk) as Hob.
  destruct (Z.leb_spec (m - m mod k) other),
           (Z.leb_spec other (m + k - m mod k - 1)),
           (Z.eqb_spec (m / k) (other / k)); simpl; try reflexivity;
    exfalso; nia.
Qed.

Lemma Moment_isSame_sym (m other : Moment) (u : unitOfTime) :
  Moment_isSame m other u = Moment_isSame other m u.
Proof. rewrite !Moment_isSame_div. apply Z.eqb_sym. Qed.

Lemma Moment_isSame_refl (m : Moment) (u : unitOfTime) :
  Moment_isSame m m u = true.
Proof. rewrite Moment_isSame_div. apply Z.eqb_refl. Qed.

Lemma mul_minus_one (x : Big.t) :
  Big.mul x (Big.ofZ (-1)) = Qopp (Big.mul x (Big.ofZ 1)).
Proof.
  unfold Big.mul, Big.ofZ, Qmult, Qopp, inject_Z; simpl.
  f_equal. lia.
Qed.

Lemma mul_one_minus (x : Big.t) :
  Big.mul x (Big.ofZ 1) = Qopp (Big.mul x (Big.ofZ (-1))).
Proof.
  unfold Big.mul, Big.ofZ, Qmult, Qopp, inject_Z; simpl.
  f_equal. lia.
Qed.



Section TwoEngines.

Variables a b : BusinessTime.
Hypothesis Hprecision : precision a = precision b.
Hypothesis Hconstraints : constraints a = constraints b.
Hypothesis Hcached : lengthOfBusinessDayCached a = lengthOfBusinessDayCached b.

Lemma atMoment_same_configuration (t : Moment) : atMoment a t = atMoment b t.
Proof. unfold atMoment. rewrite Hprecision, Hconstraints. reflexivity. Qed.

(** The length of the business day does not depend on the instant. *)
Lemma lengthOfBusinessDay_same_configuration (fuel : nat) :
  fst (lengthOfBusinessDay fuel a) = fst (lengthOfBusinessDay fuel b).
Proof.
  rewrite !lengthOfBusinessDay_unfold, Hcached.
  destruct (lengthOfBusinessDayCached b) as [d |]; [reflexivity |].
  rewrite !determineLengthOfBusinessDay_unfold.
  rewrite !atMoment_same_configuration.
  destruct (startOfBusinessDay fuel (atMoment b typicalDayDefault))
    as [[s | err |] typical']; try reflexivity.
  destruct (endOfBusinessDay fuel typical') as [[e | err |] typical''];
    try reflexivity.
  rewrite !atMoment_same_configuration.
  destruct (diffBusiness fuel (atMoment b (getMoment s)) (getMoment e) true)
    as [len | err |]; try reflexivity.
  rewrite !setLengthOfBusinessDay_cases.
  destruct (len <=? 0); [reflexivity |].
  destruct (86400000 <? len); reflexivity.
Qed.

Lemma diffInBusinessTime_symmetric (fuel : nat) :
  diffInBusinessTime fuel a (moment b) true
  = diffInBusinessTime fuel b (moment a) true.
Proof.
  unfold diffInBusinessTime, getMoment, isAfter.
  rewrite (Moment_isSame_sym (moment b) (moment a)).
  destruct (Moment_isSame (moment a) (moment b) Minutes); [reflexivity |].
  rewrite Hprecision.
  destruct (Z.ltb_spec (moment b) (moment a)) as [Hba | Hab],
           (Z.ltb_spec (moment a) (moment b)) as [Hab' | Hba'];
    try lia; try reflexivity.
  replace (moment b) with (moment a) by lia. reflexivity.
Qed.

Lemma diffInBusinessTime_antisymmetric (fuel : nat) :
  diffInBusinessTime fuel a (moment b) false
  = result_map Qopp (diffInBusinessTime fuel b (moment a) false).
Proof.
  unfold diffInBusinessTime, getMoment, isAfter.
  rewrite (Moment_isSame_sym (moment b) (moment a)).
  destruct (Moment_isSame (moment a) (moment b) Minutes) eqn:Hsame;
    [reflexivity |].
  rewrite Hprecision.
  destruct (Z.ltb_spec (moment b) (moment a)) as [Hba | Hab],
           (Z.ltb_spec (moment a) (moment b)) as [Hab' | Hba'];
    try lia.
  - destruct (diffInBusinessTime_while fuel (precision b) (moment a)
                (new_BusinessTime (moment b) None None) (Big.ofZ 0));
      simpl; try reflexivity.
    rewrite mul_minus_one. reflexivity.
  - destruct (diffInBusinessTime_while fuel (precision b) (moment b)
                (new_BusinessTime (moment a) None None) (Big.ofZ 0));
      simpl; try reflexivity.
    rewrite mul_one_minus. reflexivity.
  - assert (Heq : moment a = moment b) by lia.
    rewrite Heq, Moment_isSame_refl in Hsame. discriminate Hsame.
Qed.

End TwoEngines.



(** ** Adding and subtracting zero business days (C8) *)

Lemma determineLengthOfBusinessDay_frame (fuel : nat) (this this' : BusinessTime)
    (r : result BusinessTime) :
  determineLengthOfBusinessDay fuel None this = (r, this') ->
  moment this' = moment this /\
  precision this' = precision this /\
  constraints this' = constraints this.
Proof.
  rewrite determineLengthOfBusinessDay_unfold.
  destruct (startOfBusinessDay fuel (atMoment this typicalDayDefault))
    as [[s | err |] typical'];
    try solve [intros H; inversion H; subst; repeat split].
  destruct (endOfBusinessDay fuel typical') as [[e | err |] typical''];
    try solve [intros H; inversion H; subst; repeat split].
  destruct (diffBusiness fuel (atMoment this (getMoment s)) (getMoment e) true)
    as [len | err |];
    try solve [intros H; inversion H; subst; repeat split].
  rewrite setLengthOfBusinessDay_cases.
  intros H; inversion H; subst; repeat split.
Qed.

(** [lengthOfBusinessDay] touches the cache only, and what it returns is in
    the cache afterwards. *)
Lemma lengthOfBusinessDay_frame (fuel : nat) (this this' : BusinessTime)
    (r : result Duration) :
  lengthOfBusinessDay fuel this = (r, this') ->
  moment this' = moment this /\
  precision this' = precision this /\
  constraints this' = constraints this /\
  (forall len, r = Ok len -> lengthOfBusinessDayCached this' = Some len).
Proof.
  rewrite lengthOfBusinessDay_unfold.
  destruct (lengthOfBusinessDayCached this) as [d |] eqn:Hc.
  - intros H; inversion H; subst. repeat split.
    intros len Hlen; inversion Hlen; subst. exact Hc.
  - destruct (determineLengthOfBusinessDay fuel None this) as [[x | err |] t]
      eqn:Hdet; apply determineLengthOfBusinessDay_frame in Hdet;
      destruct Hdet as [Hm [Hp Hcs]].
    + destruct (lengthOfBusinessDayCached t) as [d |] eqn:Hct;
        intros H; inversion H; subst; repeat split; try assumption;
        intros len Hlen; inversion Hlen; subst; exact Hct.
    + intros H; inversion H; subst; repeat split; try assumption.
      intros len Hlen; discriminate Hlen.
    + intros H; inversion H; subst; repeat split; try assumption.
      intros len Hlen; discriminate Hlen.
Qed.

Lemma asSeconds_nonzero (d : Duration) : d <> 0 -> Qeq_bool (asSeconds d) 0 = false.
Proof.
  intros Hd. unfold Qeq_bool, asSeconds; simpl.
  rewrite Z.mul_1_r. apply Z.eqb_neq. exact Hd.
Qed.

Lemma asDays_nonzero (d : Duration) : d <> 0 -> Qeq_bool (asDays d) 0 = false.
Proof.
  intros Hd. unfold Qeq_bool, asDays; simpl.
  rewrite Z.mul_1_r. apply Z.eqb_neq. exact Hd.
Qed.

Lemma Qdiv_nonzero (x y : Q) :
  Qeq_bool x 0 = false -> Qeq_bool y 0 = false -> Qeq_bool (Qdiv x y) 0 = false.
Proof.
  intros Hx Hy.
  destruct (Qeq_bool (Qdiv x y) 0) eqn:Hxy; [| reflexivity].
  apply Qeq_bool_iff in Hxy.
  assert (Hy' : ~ (y == 0)%Q) by (apply Qeq_bool_neq; exact Hy).
  assert (Hx' : ~ (x == 0)%Q) by (apply Qeq_bool_neq; exact Hx).
  exfalso. apply Hx'.
  rewrite <- (Qmult_div_r x y Hy'), Hxy. apply Qmult_0_r.
Qed.

(** Zero divided by anything but zero has numerator zero. *)
Lemma div_zero (y : Big.t) :
  Qeq_bool y 0 = false ->
  exists c, Big.div (Big.ofZ 0) y = Ok c /\ Qnum c = 0.
Proof.
  intros Hy. unfold Big.div. rewrite Hy.
  eexists; split; [reflexivity |].
  unfold Big.round, Big.roundQuot; simpl.
  reflexivity.
Qed.

Lemma not_gt_zero (c : Big.t) :
  Qnum c = 0 -> Big.gt (Big.sub (Big.ofZ 0) c) (Big.ofZ 0) = false.
Proof.
  intros Hc. unfold Big.gt, Big.sub, Big.ofZ, Qle_bool, Qminus, Qplus, Qopp;
    simpl. rewrite Hc. reflexivity.
Qed.

Section ZeroBusinessDays.

Variables (fuel : nat) (this this' : BusinessTime) (len : Duration).
Hypothesis Hprecision : precision this <> 0.
Hypothesis Hlength : lengthOfBusinessDay fuel this = (Ok len, this').
Hypothesis Hlen : len <> 0.

Lemma diffInPartialBusinessDays_same_instant :
  exists c,
    diffInPartialBusinessDays fuel (moment this) true this = (Ok c, this') /\
    Qnum c = 0.
Proof.
  unfold diffInPartialBusinessDays, bind, getThis, lift.
  unfold diffInBusinessTime, getMoment.
  rewrite Moment_isSame_refl, Hlength.
  unfold Number_div. rewrite (asSeconds_nonzero _ Hprecision). simpl.
  destruct (div_zero (Qdiv (asSeconds len) (asSeconds (precision this))))
    as [c [Hc Hc0]].
  { apply Qdiv_nonzero; apply asSeconds_nonzero; assumption. }
  exists c. rewrite Hc. split; [reflexivity | exact Hc0].
Qed.

Lemma residual_of_zero_days (next : BusinessTime) :
  moment next = moment this ->
  fst (addBusinessDays_residual fuel (Big.ofZ 0) next this) = Ok next /\
  fst (subBusinessDays_residual fuel (Big.ofZ 0) next this) = Ok next.
Proof.
  intros Hnext.
  destruct diffInPartialBusinessDays_same_instant as [c [Hc Hc0]].
  destruct (lengthOfBusinessDay_frame _ _ _ _ Hlength)
    as [_ [_ [_ Hcache]]].
  specialize (Hcache len eq_refl).
  unfold addBusinessDays_residual, subBusinessDays_residual, bind, getThis,
    lift, getMoment.
  rewrite Hnext, Hc. simpl.
  rewrite (lengthOfBusinessDay_cached fuel this' len Hcache).
  unfold Big.div. rewrite (asDays_nonzero _ Hlen).
  split; destruct fuel; simpl; rewrite (not_gt_zero c Hc0); reflexivity.
Qed.

End ZeroBusinessDays.

(** C8 as stated fails: on an engine whose business-day length cannot be
    determined [addBusinessDays(0)] returns no engine. With a precision of
    30 hours the determined length is 30 hours and is refused. *)
Lemma addBusinessDays_zero_may_throw :
  ~ (exists fuel next,
       fst (addBusinessDays fuel (Big.ofZ 0) monday9_30h) = Ok next).
Proof.
  intros [fuel [next Hok]].
  assert (Hthrow : fst (addBusinessDays 10 (Big.ofZ 0) monday9_30h)
                   = Throw (BusinessDayTooLong (duration 30 Hours)))
    by (vm_compute; reflexivity).
  assert (H1 : (fuel <= 10 + fuel)%nat) by lia.
  assert (H2 : (10 <= 10 + fuel)%nat) by lia.
  destruct (addBusinessDays_mono fuel (10 + fuel) (Big.ofZ 0) H1) as [Hup _].
  destruct (addBusinessDays_mono 10 (10 + fuel) (Big.ofZ 0) H2) as [Hten _].
  destruct (Hup monday9_30h) as [Hout | Heq];
    [rewrite Hout in Hok; discriminate Hok |].
  destruct (Hten monday9_30h) as [Hout | Heq'];
    [rewrite Hout in Hthrow; discriminate Hthrow |].
  rewrite Heq, <- Heq', Hthrow in Hok. discriminate Hok.
Qed.

(** C8, as the code has it: on every engine with a precision other than
    zero on which [lengthOfBusinessDay()] returns a length other than zero,
    [addBusinessDays(0)] and [subBusinessDays(0)] return an engine at the
    receiver's instant with the receiver's precision and constraints. *)
Theorem addBusinessDays_zero_is_identity (fuel : nat) (this : BusinessTime)
    (len : Duration) :
  precision this <> 0 ->
  fst (lengthOfBusinessDay fuel this) = Ok len ->
  len <> 0 ->
  exists next,
    fst (addBusinessDays (S fuel) (Big.ofZ 0) this) = Ok next /\
    fst (subBusinessDays (S fuel) (Big.ofZ 0) this) = Ok next /\
    moment next = moment this /\
    precision next = precision this /\
    constraints next = constraints this.
Proof.
  intros Hp Hrun Hlen.
  destruct (lengthOfBusinessDay fuel this) as [r this'] eqn:Hlength.
  simpl in Hrun; subst r.
  destruct (jump_then_residual fuel (Big.ofZ 0) this) as [Hadd Hsub];
    [unfold Qle; simpl; lia |].
  change (Qfloor (Big.ofZ 0) * unitMs Days) with 0 in Hadd, Hsub.
  rewrite Z.add_0_r in Hadd. rewrite Z.sub_0_r in Hsub.
  destruct (residual_of_zero_days fuel this this' len Hp Hlength Hlen
              (atMoment this (moment this)) eq_refl) as [Ha Hs].
  exists (atMoment this (moment this)).
  rewrite Hadd, Hsub. repeat split; assumption.
Qed.

Lemma addBusinessDays_zero_is_identity_witness :
  precision monday9 <> 0 /\
  fst (lengthOfBusinessDay 9 monday9) = Ok (duration 8 Hours) /\
  duration 8 Hours <> 0 /\
  exists next,
    fst (addBusinessDays 10 (Big.ofZ 0) monday9) = Ok next /\
    fst (subBusinessDays 10 (Big.ofZ 0) monday9) = Ok next /\
    moment next = moment monday9 /\
    precision next = precision monday9 /\
    constraints next = constraints monday9.
Proof.
  split; [vm_compute; lia |].
  split; [reflexivity |].
  split; [vm_compute; lia |].
  apply (addBusinessDays_zero_is_identity 9 monday9 (duration 8 Hours)).
  - vm_compute; lia.
  - reflexivity.
  - vm_compute; lia.
Defined.


Example diffInBusinessDays_monday_tuesday :
  fst (diffInBusinessDays 40 (moment tuesday13) false monday9) = Ok 1%Q /\
  fst (diffInBusinessDays 40 (moment monday9) false tuesday13) = Ok (-1)%Q /\
  fst (diffInBusinessDays 40 (moment monday9) true tuesday13) = Ok 1%Q.
Proof. repeat split; vm_compute; reflexivity. Qed.


(** * Further properties of the engine *)

(** ** isBusinessTime *)

(** X1: an engine is in business time exactly when every constraint of its
    list accepts its instant; with an empty list it always is. *)
Theorem isBusinessTime_all_constraints (this : BusinessTime) :
  (isBusinessTime this = true <->
   Forall (fun c => IBusinessTimeConstraint.isBusinessTime c (moment this) = true)
     (constraints this)) /\
  (constraints this = [] -> isBusinessTime this = true).
Proof.
  unfold isBusinessTime, getMoment. split.
  - rewrite isBusinessTime_for_forallb, forallb_forall, Forall_forall.
    reflexivity.
  - intros ->. reflexivity.
Qed.

Lemma isBusinessTime_all_constraints_witness :
  constraints saturday9_unconstrained = [] /\
  ((isBusinessTime saturday9_unconstrained = true <->
    Forall (fun c => IBusinessTimeConstraint.isBusinessTime c
                       (moment saturday9_unconstrained) = true)
      (constraints saturday9_unconstrained)) /\
   (constraints saturday9_unconstrained = [] ->
    isBusinessTime saturday9_unconstrained = true)).
Proof.
  split; [reflexivity |].
  apply (isBusinessTime_all_constraints saturday9_unconstrained).
Defined.

(** ** diffInBusinessTime *)

(** X2: when the other instant falls in the same minute as the engine's,
    [diffInBusinessTime] is 0 and no step is taken, whatever the flag. *)
Theorem diffInBusinessTime_same_minute (fuel : nat) (this : BusinessTime)
    (time : Moment) (absolute : bool) :
  moment this / 60000 = time / 60000 ->
  diffInBusinessTime fuel this time absolute = Ok (Big.ofZ 0).
Proof.
  intros Hminute. unfold diffInBusinessTime, getMoment.
  rewrite Moment_isSame_div. change (unitMs Minutes) with 60000.
  rewrite Hminute, Z.eqb_refl. reflexivity.
Qed.

Lemma diffInBusinessTime_same_minute_witness :
  moment monday9 / 60000 = (utc 2018 5 21 9 0 59 999) / 60000 /\
  diffInBusinessTime 0 monday9 (utc 2018 5 21 9 0 59 999) false = Ok (Big.ofZ 0).
Proof.
  split; [reflexivity |].
  apply (diffInBusinessTime_same_minute 0 monday9 (utc 2018 5 21 9 0 59 999) false).
  reflexivity.
Defined.

(** X5: with [absolute = false] the result is that with [absolute = true],
    negated exactly when the other instant is before the engine's. *)
Theorem diffInBusinessTime_absolute_flag (fuel : nat) (this : BusinessTime)
    (time : Moment) :
  diffInBusinessTime fuel this time false
  = if time <? moment this
    then result_map Qopp (diffInBusinessTime fuel this time true)
    else diffInBusinessTime fuel this time true.
Proof.
  unfold diffInBusinessTime, isAfter.
  destruct (Moment_isSame time (getMoment this) Minutes).
  - destruct (time <? moment this); reflexivity.
  - destruct (time <? moment this); [| reflexivity].
    destruct (diffInBusinessTime_while fuel (precision this) (moment this)
                (new_BusinessTime time None None) (Big.ofZ 0));
      simpl; try reflexivity.
    rewrite mul_minus_one. reflexivity.
Qed.

Lemma not_same_minute_apart (m time : Moment) :
  Moment_isSame time m Minutes = false -> Z.min m time < Z.max m time.
Proof.
  intros Hsame.
  destruct (Z.eq_dec m time) as [-> | Hne]; [| lia].
  rewrite Moment_isSame_refl in Hsame. discriminate Hsame.
Qed.

Lemma diffInBusinessTime_start_end (fuel : nat) (this : BusinessTime)
    (time : Moment) (absolute : bool) :
  Moment_isSame time (moment this) Minutes = false ->
  diffInBusinessTime fuel this time absolute
  = result_map
      (fun diff => Big.mul diff
         (Big.ofZ (if (time <? moment this) && negb absolute then -1 else 1)))
      (diffInBusinessTime_while fuel (precision this)
         (Z.max (moment this) time)
         (new_BusinessTime (Z.min (moment this) time) None None) (Big.ofZ 0)).
Proof.
  intros Hsame. unfold diffInBusinessTime, getMoment, isAfter.
  rewrite Hsame.
  destruct (Z.ltb_spec time (moment this)) as [Hlt | Hge].
  - rewrite Z.min_r, Z.max_l by lia. destruct absolute; reflexivity.
  - rewrite Z.min_l, Z.max_r by lia. reflexivity.
Qed.

Lemma diffInBusinessTime_while_stuck (precision : Duration) (end_ : Moment) :
  precision <= 0 ->
  forall fuel next diff,
    moment next < end_ ->
    diffInBusinessTime_while fuel precision end_ next diff = OutOfFuel.
Proof.
  intros Hp. induction fuel as [| n IH]; intros next diff Hlt; simpl;
    unfold isBefore; destruct (Z.ltb_spec (moment next) end_); try lia;
    try reflexivity.
  apply IH. simpl. lia.
Qed.

(** X4: with a precision that is zero or negative, [diffInBusinessTime]
    between two instants of different minutes never returns: the stepped
    instant never reaches the later one. *)
Theorem diffInBusinessTime_nonpositive_precision (fuel : nat)
    (this : BusinessTime) (time : Moment) (absolute : bool) :
  precision this <= 0 ->
  Moment_isSame time (moment this) Minutes = false ->
  diffInBusinessTime fuel this time absolute = OutOfFuel.
Proof.
  intros Hp Hsame.
  rewrite diffInBusinessTime_start_end by exact Hsame.
  rewrite diffInBusinessTime_while_stuck; [reflexivity | exact Hp |].
  simpl. apply not_same_minute_apart. exact Hsame.
Qed.

Lemma diffInBusinessTime_nonpositive_precision_witness :
  precision (new_BusinessTime (utc 2018 5 21 9 0 0 0) (Some 0) None) <= 0 /\
  Moment_isSame (utc 2018 5 21 10 0 0 0)
    (moment (new_BusinessTime (utc 2018 5 21 9 0 0 0) (Some 0) None)) Minutes
    = false /\
  diffInBusinessTime 1000
    (new_BusinessTime (utc 2018 5 21 9 0 0 0) (Some 0) None)
    (utc 2018 5 21 10 0 0 0) true = OutOfFuel.
Proof.
  split; [simpl; lia |].
  split; [reflexivity |].
  apply (diffInBusinessTime_nonpositive_precision 1000
           (new_BusinessTime (utc 2018 5 21 9 0 0 0) (Some 0) None)
           (utc 2018 5 21 10 0 0 0) true).
  - simpl; lia.
  - reflexivity.
Defined.

Lemma add_one (d : Z) : Big.add (inject_Z d) (Big.ofZ 1) = inject_Z (d + 1).
Proof.
  unfold Big.add, Big.ofZ, Qplus, inject_Z; simpl. f_equal. lia.
Qed.

Lemma mul_sign (n sign : Z) :
  Big.mul (inject_Z n) (Big.ofZ sign) = inject_Z (n * sign).
Proof. reflexivity. Qed.

Lemma stepInstants_S (start step : Z) (n : nat) :
  stepInstants start step (S n) = start :: stepInstants (start + step) step n.
Proof.
  unfold stepInstants. simpl. f_equal; [lia |].
  rewrite <- seq_shift, map_map. apply map_ext. intros k. lia.
Qed.

Lemma stepsBetween_done (start end_ step : Z) :
  0 < step -> end_ <= start -> stepsBetween start end_ step = 0%nat.
Proof.
  intros Hstep Hle. unfold stepsBetween.
  assert ((end_ - start + step - 1) / step <= 0); [| lia].
  apply Z.lt_succ_r, Z.div_lt_upper_bound; lia.
Qed.

Lemma stepsBetween_step (start end_ step : Z) :
  0 < step -> start < end_ ->
  stepsBetween start end_ step = S (stepsBetween (start + step) end_ step).
Proof.
  intros Hstep Hlt. unfold stepsBetween.
  replace (end_ - start + step - 1) with ((end_ - start - 1) + 1 * step) by lia.
  replace (end_ - (start + step) + step - 1) with (end_ - start - 1) by lia.
  rewrite Z.div_add by lia.
  assert (0 <= (end_ - start - 1) / step) by (apply Z.div_pos; lia).
  lia.
Qed.

(** With a positive precision the loop ends after [stepsBetween] steps and
    has counted the visited instants that the stepped engine's constraints
    accept. *)
Lemma diffInBusinessTime_while_closed_form (precision : Duration) (end_ : Moment) :
  0 < precision ->
  forall (n fuel : nat) (next : BusinessTime) (d : Z),
    stepsBetween (moment next) end_ precision = n ->
    (n <= fuel)%nat ->
    diffInBusinessTime_while fuel precision end_ next (inject_Z d)
    = Ok (inject_Z
            (d + Z.of_nat
                   (length (filter (isBusinessTime_for (constraints next))
                              (stepInstants (moment next) precision n))))).
Proof.
  intros Hp. induction n as [| n IH]; intros fuel next d Hn Hfuel.
  - destruct (Z.lt_ge_cases (moment next) end_) as [Hlt | Hge].
    + rewrite (stepsBetween_step _ _ _ Hp Hlt) in Hn. discriminate Hn.
    + destruct fuel; simpl; unfold isBefore;
        destruct (Z.ltb_spec (moment next) end_); try lia;
        rewrite Z.add_0_r; reflexivity.
  - destruct (Z.lt_ge_cases (moment next) end_) as [Hlt | Hge].
    + rewrite (stepsBetween_step _ _ _ Hp Hlt) in Hn. injection Hn as Hn.
      destruct fuel as [| fuel]; [lia |].
      simpl diffInBusinessTime_while. unfold isBefore.
      destruct (Z.ltb_spec (moment next) end_); [| lia].
      rewrite stepInstants_S. simpl filter.
      unfold isBusinessTime, getMoment.
      destruct (isBusinessTime_for (constraints next) (moment next)).
      * rewrite add_one, (IH fuel _ (d + 1)); [| exact Hn | lia].
        simpl. do 2 f_equal. lia.
      * rewrite (IH fuel _ d); [| exact Hn | lia]. reflexivity.
    + rewrite (stepsBetween_done _ _ _ Hp Hge) in Hn. discriminate Hn.
Qed.

(** Whatever the precision, a count the loop returns is a whole number. *)
Lemma diffInBusinessTime_while_whole (precision : Duration) (end_ : Moment) :
  forall (fuel : nat) (next : BusinessTime) (d : Z) (r : Big.t),
    diffInBusinessTime_while fuel precision end_ next (inject_Z d) = Ok r ->
    exists n, r = inject_Z n /\ d <= n.
Proof.
  induction fuel as [| fuel IH]; intros next d r; simpl;
    destruct (isBefore next end_); try discriminate;
    try (intros H; injection H as <-; exists d; split; [reflexivity | lia]).
  destruct (isBusinessTime next).
  - rewrite add_one. intros H. apply IH in H. destruct H as [n [-> Hn]].
    exists n. split; [reflexivity | lia].
  - apply IH.
Qed.

Lemma diffInBusinessTime_whole (fuel : nat) (this : BusinessTime)
    (time : Moment) (absolute : bool) (r : Big.t) :
  diffInBusinessTime fuel this time absolute = Ok r ->
  exists n, r = inject_Z n /\ (absolute = true -> 0 <= n).
Proof.
  destruct (Moment_isSame time (moment this) Minutes) eqn:Hsame.
  - unfold diffInBusinessTime, getMoment. rewrite Hsame.
    intros H; injection H as <-. exists 0. split; [reflexivity | lia].
  - rewrite diffInBusinessTime_start_end by exact Hsame.
    destruct (diffInBusinessTime_while fuel (precision this)
                (Z.max (moment this) time)
                (new_BusinessTime (Z.min (moment this) time) None None)
                (Big.ofZ 0)) as [c | err |] eqn:Hloop; try discriminate.
    apply diffInBusinessTime_while_whole in Hloop.
    destruct Hloop as [n [-> Hn]].
    simpl. intros H; injection H as <-. rewrite mul_sign.
    eexists; split; [reflexivity |].
    intros ->. rewrite andb_false_r. lia.
Qed.

(** X3: with a positive precision, between two instants of different
    minutes, [diffInBusinessTime] returns once the fuel covers the steps
    from the earlier instant up to the later one, and its result is the
    number of the visited instants earlier, earlier + precision, ... that
    the default constraints accept, negated when the other instant is the
    earlier one and [absolute] is false. *)
Theorem diffInBusinessTime_counts_steps (fuel : nat) (this : BusinessTime)
    (time : Moment) (absolute : bool) :
  0 < precision this ->
  Moment_isSame time (moment this) Minutes = false ->
  (stepsBetween (Z.min (moment this) time) (Z.max (moment this) time)
     (precision this) <= fuel)%nat ->
  diffInBusinessTime fuel this time absolute
  = Ok (inject_Z
          (Z.of_nat
             (length
                (filter defaultIsBusinessTime
                   (stepInstants (Z.min (moment this) time) (precision this)
                      (stepsBetween (Z.min (moment this) time)
                         (Z.max (moment this) time) (precision this)))))
           * (if (time <? moment this) && negb absolute then -1 else 1))).
Proof.
  intros Hp Hsame Hfuel.
  rewrite diffInBusinessTime_start_end by exact Hsame.
  change (Big.ofZ 0) with (inject_Z 0).
  rewrite (diffInBusinessTime_while_closed_form _ _ Hp _ fuel _ 0 eq_refl)
    by exact Hfuel.
  reflexivity.
Qed.

Lemma diffInBusinessTime_counts_steps_witness :
  0 < precision monday9 /\
  Moment_isSame (moment tuesday13) (moment monday9) Minutes = false /\
  (stepsBetween (Z.min (moment monday9) (moment tuesday13))
     (Z.max (moment monday9) (moment tuesday13)) (precision monday9) <= 28)%nat /\
  diffInBusinessTime 28 monday9 (moment tuesday13) true
  = Ok (inject_Z
          (Z.of_nat
             (length
                (filter defaultIsBusinessTime
                   (stepInstants (Z.min (moment monday9) (moment tuesday13))
                      (precision monday9)
                      (stepsBetween (Z.min (moment monday9) (moment tuesday13))
                         (Z.max (moment monday9) (moment tuesday13))
                         (precision monday9)))))
           * (if (moment tuesday13 <? moment monday9) && negb true
              then -1 else 1))).
Proof.
  split; [reflexivity |].
  split; [reflexivity |].
  split; [vm_compute; lia |].
  apply (diffInBusinessTime_counts_steps 28 monday9 (moment tuesday13) true).
  - reflexivity.
  - reflexivity.
  - vm_compute; lia.
Defined.

(** ** diffBusiness *)

Lemma secondsToDuration_steps (n : Z) (precision : Duration) :
  secondsToDuration (Big.mul (inject_Z n) (asSeconds precision)) = n * precision.
Proof.
  unfold secondsToDuration, Big.roundQuot, Big.mul, asSeconds, Qmult, inject_Z.
  simpl. apply Z.quot_mul. discriminate.
Qed.

Lemma diffBusiness_whole_steps (fuel : nat) (this : BusinessTime)
    (time : Moment) (absolute : bool) (d : Duration) :
  diffBusiness fuel this time absolute = Ok d ->
  exists n,
    diffInBusinessTime fuel this time absolute = Ok (inject_Z n) /\
    d = n * precision this /\
    (absolute = true -> 0 <= n).
Proof.
  unfold diffBusiness.
  destruct (diffInBusinessTime fuel this time absolute) as [r | err |] eqn:Hdiff;
    try discriminate.
  apply diffInBusinessTime_whole in Hdiff. destruct Hdiff as [n [-> Hn]].
  simpl. rewrite secondsToDuration_steps. intros H; injection H as <-.
  exists n. repeat split. exact Hn.
Qed.

(** X6: a duration returned by [diffBusiness] is a whole number of
    precision steps: the count of [diffInBusinessTime] times the precision;
    with [absolute = true] the count is not negative. *)
Theorem diffBusiness_is_count_times_precision (fuel : nat) (this : BusinessTime)
    (time : Moment) (absolute : bool) (d : Duration) :
  diffBusiness fuel this time absolute = Ok d ->
  exists n,
    diffInBusinessTime fuel this time absolute = Ok (inject_Z n) /\
    d = n * precision this /\
    (absolute = true -> 0 <= n).
Proof. apply diffBusiness_whole_steps. Qed.

Lemma diffBusiness_is_count_times_precision_witness :
  diffBusiness 28 monday9 (moment tuesday13) true = Ok (duration 12 Hours) /\
  exists n,
    diffInBusinessTime 28 monday9 (moment tuesday13) true = Ok (inject_Z n) /\
    duration 12 Hours = n * precision monday9 /\
    (true = true -> 0 <= n).
Proof.
  split; [vm_compute; reflexivity |].
  apply (diffBusiness_is_count_times_precision 28 monday9 (moment tuesday13)
           true (duration 12 Hours)).
  vm_compute; reflexivity.
Defined.

(** ** startOfBusinessDay and endOfBusinessDay *)

Lemma startOfBusinessDay_run (fuel : nat) (this : BusinessTime) :
  startOfBusinessDay fuel this
  = (startOfBusinessDay_while fuel (precision this)
       (atMoment this (Moment_startOf (moment this) Days)),
     setMoment this (Moment_startOf (moment this) Days)).
Proof. reflexivity. Qed.

Lemma endOfBusinessDay_run (fuel : nat) (this : BusinessTime) :
  endOfBusinessDay fuel this
  = (endOfBusinessDay_while fuel (precision this)
       (atMoment this (Moment_endOf (moment this) Days)),
     setMoment this (Moment_endOf (moment this) Days)).
Proof. reflexivity. Qed.

(** Walking back by the precision is walking on by its opposite. *)
Lemma endOfBusinessDay_while_backwards (precision : Duration) :
  forall (fuel : nat) (end_ : BusinessTime),
    endOfBusinessDay_while fuel precision end_
    = startOfBusinessDay_while fuel (- precision) end_.
Proof.
  induction fuel as [| fuel IH]; intros end_; simpl;
    destruct (negb (isBusinessTime end_)); try reflexivity.
  rewrite IH. unfold subtract, add, inputMs.
  rewrite <- Z.add_opp_r. reflexivity.
Qed.

Lemma atMoment_self (this : BusinessTime) :
  lengthOfBusinessDayCached this = None ->
  atMoment this (moment this + Z.of_nat 0 * precision this) = this.
Proof.
  intros Hc. destruct this as [m p cs c]. simpl in *. subst c.
  unfold atMoment, new_BusinessTime; simpl. f_equal. lia.
Qed.

(** A returned engine is the first in business time on the walk. *)
Lemma startOfBusinessDay_while_first (step : Duration) :
  forall (fuel : nat) (start s : BusinessTime),
    lengthOfBusinessDayCached start = None ->
    startOfBusinessDay_while fuel step start = Ok s ->
    exists k : nat,
      (k <= fuel)%nat /\
      s = atMoment start (moment start + Z.of_nat k * step) /\
      isBusinessTime s = true /\
      forall j : nat, (j < k)%nat ->
        isBusinessTime (atMoment start (moment start + Z.of_nat j * step)) = false.
Proof.
  assert (Hzero : forall start s : BusinessTime,
            lengthOfBusinessDayCached start = None ->
            isBusinessTime start = true -> Ok start = Ok s ->
            exists k : nat,
              (k <= 0)%nat /\
              s = atMoment start (moment start + Z.of_nat k * step) /\
              isBusinessTime s = true /\
              forall j : nat, (j < k)%nat ->
                isBusinessTime
                  (atMoment start (moment start + Z.of_nat j * step)) = false).
  { intros start s Hc Hbt H. injection H as <-. exists 0%nat.
    split; [lia |]. split.
    - destruct start as [m p cs c]. simpl in *. subst c.
      unfold atMoment, new_BusinessTime; simpl. f_equal. lia.
    - split; [exact Hbt | intros j Hj; lia]. }
  induction fuel as [| fuel IH]; intros start s Hc; simpl;
    destruct (isBusinessTime start) eqn:Hbt; simpl; try discriminate.
  - apply Hzero; assumption.
  - intros H. destruct (Hzero start s Hc Hbt H) as [k [Hk Hrest]].
    exists k. split; [lia | exact Hrest].
  - intros H. apply IH in H; [| reflexivity].
    destruct H as [k [Hk [Hs [Hsbt Hbefore]]]].
    exists (S k). split; [lia |]. split; [| split; [exact Hsbt |]].
    + rewrite Hs. unfold add, inputMs. rewrite atMoment_atMoment. simpl moment.
      f_equal. lia.
    + intros [| j] Hj.
      * unfold isBusinessTime, getMoment in *. simpl.
        rewrite Z.add_0_r. exact Hbt.
      * specialize (Hbefore j ltac:(lia)).
        unfold add, inputMs in Hbefore.
        rewrite atMoment_atMoment in Hbefore. simpl moment in Hbefore.
        replace (moment start + Z.of_nat (S j) * step)
          with (moment start + step + Z.of_nat j * step) by lia.
        exact Hbefore.
Qed.

(** The walk returns as soon as the fuel reaches a step in business time. *)
Lemma startOfBusinessDay_while_reaches (step : Duration) :
  forall (k : nat) (start : BusinessTime),
    isBusinessTime (atMoment start (moment start + Z.of_nat k * step)) = true ->
    exists s, startOfBusinessDay_while k step start = Ok s.
Proof.
  induction k as [| k IH]; intros start Hk; simpl;
    destruct (isBusinessTime start) eqn:Hbt; simpl;
    try (eexists; reflexivity).
  - unfold isBusinessTime, getMoment in *. simpl in Hk.
    rewrite Z.add_0_r in Hk. congruence.
  - apply IH. unfold add, inputMs. rewrite atMoment_atMoment. simpl moment.
    replace (moment start + step + Z.of_nat k * step)
      with (moment start + Z.of_nat (S k) * step) by lia.
    exact Hk.
Qed.

(** X7: an engine returned by [startOfBusinessDay] is in business time, lies
    a whole number k of precision steps after the start of the receiver's
    calendar day, carries the receiver's precision and constraints, and no
    earlier step of the walk is in business time. *)
Theorem startOfBusinessDay_first_business_time (fuel : nat)
    (this s : BusinessTime) :
  fst (startOfBusinessDay fuel this) = Ok s ->
  exists k : nat,
    (k <= fuel)%nat /\
    s = atMoment this
          (Moment_startOf (moment this) Days + Z.of_nat k * precision this) /\
    isBusinessTime s = true /\
    forall j : nat, (j < k)%nat ->
      isBusinessTime
        (atMoment this
           (Moment_startOf (moment this) Days + Z.of_nat j * precision this))
      = false.
Proof.
  rewrite startOfBusinessDay_run. simpl fst. intros H.
  apply startOfBusinessDay_while_first in H; [| reflexivity].
  exact H.
Qed.

Lemma startOfBusinessDay_first_business_time_witness :
  fst (startOfBusinessDay 9 monday12)
    = Ok (atMoment monday12 (utc 2018 5 21 9 0 0 0)) /\
  exists k : nat,
    (k <= 9)%nat /\
    atMoment monday12 (utc 2018 5 21 9 0 0 0)
      = atMoment monday12
          (Moment_startOf (moment monday12) Days
           + Z.of_nat k * precision monday12) /\
    isBusinessTime (atMoment monday12 (utc 2018 5 21 9 0 0 0)) = true /\
    forall j : nat, (j < k)%nat ->
      isBusinessTime
        (atMoment monday12
           (Moment_startOf (moment monday12) Days
            + Z.of_nat j * precision monday12))
      = false.
Proof.
  split; [reflexivity |].
  apply (startOfBusinessDay_first_business_time 9 monday12
           (atMoment monday12 (utc 2018 5 21 9 0 0 0))).
  reflexivity.
Defined.

(** X8: an engine returned by [endOfBusinessDay] is in business time, lies a
    whole number k of precision steps before the last millisecond of the
    receiver's calendar day, carries the receiver's precision and
    constraints, and no earlier step of the walk back is in business
    time. *)
Theorem endOfBusinessDay_last_business_time (fuel : nat)
    (this s : BusinessTime) :
  fst (endOfBusinessDay fuel this) = Ok s ->
  exists k : nat,
    (k <= fuel)%nat /\
    s = atMoment this
          (Moment_endOf (moment this) Days - Z.of_nat k * precision this) /\
    isBusinessTime s = true /\
    forall j : nat, (j < k)%nat ->
      isBusinessTime
        (atMoment this
           (Moment_endOf (moment this) Days - Z.of_nat j * precision this))
      = false.
Proof.
  rewrite endOfBusinessDay_run, endOfBusinessDay_while_backwards. simpl fst.
  intros H. apply startOfBusinessDay_while_first in H; [| reflexivity].
  destruct H as [k [Hk [Hs [Hbt Hbefore]]]].
  exists k. split; [exact Hk |]. split; [| split; [exact Hbt |]].
  - rewrite Hs, atMoment_atMoment. simpl moment. f_equal. lia.
  - intros j Hj. specialize (Hbefore j Hj).
    rewrite atMoment_atMoment in Hbefore. simpl moment in Hbefore.
    replace (Moment_endOf (moment this) Days - Z.of_nat j * precision this)
      with (Moment_endOf (moment this) Days + Z.of_nat j * - precision this)
      by lia.
    exact Hbefore.
Qed.

Lemma endOfBusinessDay_last_business_time_witness :
  fst (endOfBusinessDay 7 monday12)
    = Ok (atMoment monday12 (utc 2018 5 21 16 59 59 999)) /\
  exists k : nat,
    (k <= 7)%nat /\
    atMoment monday12 (utc 2018 5 21 16 59 59 999)
      = atMoment monday12
          (Moment_endOf (moment monday12) Days
           - Z.of_nat k * precision monday12) /\
    isBusinessTime (atMoment monday12 (utc 2018 5 21 16 59 59 999)) = true /\
    forall j : nat, (j < k)%nat ->
      isBusinessTime
        (atMoment monday12
           (Moment_endOf (moment monday12) Days
            - Z.of_nat j * precision monday12))
      = false.
Proof.
  split; [reflexivity |].
  apply (endOfBusinessDay_last_business_time 7 monday12
           (atMoment monday12 (utc 2018 5 21 16 59 59 999))).
  reflexivity.
Defined.

(** X9: [startOfBusinessDay] returns, given enough fuel, exactly when some
    step start-of-day + k * precision is in business time, and
    [endOfBusinessDay] exactly when some step end-of-day - k * precision
    is; otherwise they walk without end. *)
Theorem business_day_walks_return_iff (this : BusinessTime) :
  ((exists fuel s, fst (startOfBusinessDay fuel this) = Ok s) <->
   (exists k : nat,
      isBusinessTime
        (atMoment this
           (Moment_startOf (moment this) Days + Z.of_nat k * precision this))
      = true)) /\
  ((exists fuel s, fst (endOfBusinessDay fuel this) = Ok s) <->
   (exists k : nat,
      isBusinessTime
        (atMoment this
           (Moment_endOf (moment this) Days - Z.of_nat k * precision this))
      = true)).
Proof.
  split; split.
  - intros [fuel [s H]]. rewrite startOfBusinessDay_run in H. simpl fst in H.
    apply startOfBusinessDay_while_first in H; [| reflexivity].
    destruct H as [k [_ [Hs [Hbt _]]]]. exists k. subst s. exact Hbt.
  - intros [k Hk]. exists k. rewrite startOfBusinessDay_run. simpl fst.
    apply startOfBusinessDay_while_reaches. exact Hk.
  - intros [fuel [s H]].
    rewrite endOfBusinessDay_run, endOfBusinessDay_while_backwards in H.
    simpl fst in H.
    apply startOfBusinessDay_while_first in H; [| reflexivity].
    destruct H as [k [_ [Hs [Hbt _]]]]. exists k. subst s.
    replace (Moment_endOf (moment this) Days - Z.of_nat k * precision this)
      with (Moment_endOf (moment this) Days + Z.of_nat k * - precision this)
      by lia.
    exact Hbt.
  - intros [k Hk]. exists k.
    rewrite endOfBusinessDay_run, endOfBusinessDay_while_backwards. simpl fst.
    apply startOfBusinessDay_while_reaches.
    rewrite atMoment_atMoment. simpl moment.
    replace (Moment_endOf (moment this) Days + Z.of_nat k * - precision this)
      with (Moment_endOf (moment this) Days - Z.of_nat k * precision this)
      by lia.
    exact Hk.
Qed.

Lemma Moment_endOf_startOf (m : Moment) (u : unitOfTime) :
  Moment_endOf (Moment_startOf m u) u = Moment_endOf m u.
Proof.
  unfold Moment_endOf, Moment_startOf.
  pose proof (unitMs_pos u) as Hk.
  rewrite Zminus_mod_idemp_r, Z.sub_diag, Z.mod_0_l by lia. lia.
Qed.

Lemma Moment_startOf_endOf (m : Moment) (u : unitOfTime) :
  Moment_startOf (Moment_endOf m u) u = Moment_startOf m u.
Proof.
  unfold Moment_endOf, Moment_startOf.
  pose proof (unitMs_pos u) as Hk.
  pose proof (Z.div_mod m (unitMs u)) as Hm.
  pose proof (Z.mod_pos_bound m (unitMs u) Hk) as Hb.
  assert (Hmod : (m + unitMs u - m mod unitMs u - 1) mod unitMs u
                 = unitMs u - 1).
  { symmetry. apply (Z.mod_unique_pos _ _ (m / unitMs u)); nia. }
  rewrite Hmod. lia.
Qed.

(** X10: the in-place move that [startOfBusinessDay] makes on the receiver
    does not change what a following [endOfBusinessDay] does, and the other
    way round: both moves stay within the calendar day. *)
Theorem business_day_walks_commute (fuel fuel' : nat) (this : BusinessTime) :
  endOfBusinessDay fuel (snd (startOfBusinessDay fuel' this))
    = endOfBusinessDay fuel this /\
  startOfBusinessDay fuel (snd (endOfBusinessDay fuel' this))
    = startOfBusinessDay fuel this.
Proof.
  rewrite !startOfBusinessDay_run, !endOfBusinessDay_run. simpl snd.
  simpl moment. simpl precision.
  rewrite Moment_endOf_startOf, Moment_startOf_endOf. split; reflexivity.
Qed.

(** ** lengthOfBusinessDay *)

(** X11: a length that [lengthOfBusinessDay] determines on an engine with
    an empty cache lies in (0, 24h], is a whole number of precision steps,
    and is left in the cache of the receiver, which is otherwise unchanged;
    any later call returns it without stepping. *)
Theorem lengthOfBusinessDay_lazily_determined (fuel : nat)
    (this this' : BusinessTime) (d : Duration) :
  lengthOfBusinessDayCached this = None ->
  lengthOfBusinessDay fuel this = (Ok d, this') ->
  0 < d <= duration 24 Hours /\
  (exists n, 0 <= n /\ d = n * precision this) /\
  this' = setCached this d /\
  forall fuel', lengthOfBusinessDay fuel' this' = (Ok d, this').
Proof.
  intros Hc. rewrite lengthOfBusinessDay_unfold, Hc,
    determineLengthOfBusinessDay_unfold.
  destruct (startOfBusinessDay fuel (atMoment this typicalDayDefault))
    as [[s | err |] typical']; try discriminate.
  destruct (endOfBusinessDay fuel typical') as [[e | err |] typical''];
    try discriminate.
  destruct (diffBusiness fuel (atMoment this (getMoment s)) (getMoment e) true)
    as [len | err |] eqn:Hdiff; try discriminate.
  apply diffBusiness_whole_steps in Hdiff.
  destruct Hdiff as [n [_ [Hlen Hn]]].
  rewrite setLengthOfBusinessDay_cases.
  change (duration 24 Hours) with 86400000.
  destruct (Z.leb_spec len 0) as [Hle | Hpos]; [discriminate |].
  destruct (Z.ltb_spec 86400000 len) as [Hlong | Hshort]; [discriminate |].
  simpl. intros Hrun. injection Hrun as <- <-.
  split; [lia |]. split; [| split; [reflexivity |]].
  - exists n. split; [apply Hn; reflexivity | exact Hlen].
  - intros fuel'. apply lengthOfBusinessDay_cached. reflexivity.
Qed.

Lemma lengthOfBusinessDay_lazily_determined_witness :
  lengthOfBusinessDayCached monday9 = None /\
  lengthOfBusinessDay 9 monday9
    = (Ok (duration 8 Hours), setCached monday9 (duration 8 Hours)) /\
  (0 < duration 8 Hours <= duration 24 Hours /\
   (exists n, 0 <= n /\ duration 8 Hours = n * precision monday9) /\
   setCached monday9 (duration 8 Hours) = setCached monday9 (duration 8 Hours) /\
   forall fuel',
     lengthOfBusinessDay fuel' (setCached monday9 (duration 8 Hours))
     = (Ok (duration 8 Hours), setCached monday9 (duration 8 Hours))).
Proof.
  split; [reflexivity |].
  split; [reflexivity |].
  apply (lengthOfBusinessDay_lazily_determined 9 monday9
           (setCached monday9 (duration 8 Hours)) (duration 8 Hours));
    reflexivity.
Defined.

(** X12: the length of the business day does not depend on the instant of
    the engine: engines derived from one engine at any two instants, and an
    engine before and after an in-place move, get the same outcome. *)
Theorem lengthOfBusinessDay_ignores_the_instant (fuel : nat)
    (this : BusinessTime) (t t' : Moment) :
  fst (lengthOfBusinessDay fuel (atMoment this t))
    = fst (lengthOfBusinessDay fuel (atMoment this t')) /\
  fst (lengthOfBusinessDay fuel (setMoment this t))
    = fst (lengthOfBusinessDay fuel this).
Proof.
  split; apply lengthOfBusinessDay_same_configuration; reflexivity.
Qed.

(** ** addBusinessDays and subBusinessDays *)

Lemma abs_opp_positive (n : Big.t) : (0 < n)%Q -> Big.abs (Qopp n) = n.
Proof.
  destruct n as [a b]. unfold Qlt; simpl. intros Ha.
  unfold Big.abs, Qabs, Qopp; simpl. f_equal. lia.
Qed.

Lemma lt_zero_opp_positive (n : Big.t) :
  (0 < n)%Q -> Big.lt (Qopp n) (Big.ofZ 0) = true.
Proof.
  destruct n as [a b]. unfold Qlt; simpl. intros Ha.
  unfold Big.lt, Qle_bool; simpl.
  destruct (Z.leb_spec 0 (- a * 1)); [lia | reflexivity].
Qed.

(** X13: on a negative count each method hands over to the other with the
    absolute value: adding -n business days is subtracting n, and
    subtracting -n is adding n. *)
Theorem negative_count_hands_over (fuel : nat) (n : Big.t)
    (this : BusinessTime) :
  (0 < n)%Q ->
  addBusinessDays (S fuel) (Qopp n) this = subBusinessDays fuel n this /\
  subBusinessDays (S fuel) (Qopp n) this = addBusinessDays fuel n this.
Proof.
  intros Hn. cbn [addBusinessDays subBusinessDays].
  rewrite (lt_zero_opp_positive n Hn), (abs_opp_positive n Hn).
  split; reflexivity.
Qed.

Lemma negative_count_hands_over_witness :
  (0 < 1)%Q /\
  addBusinessDays 61 (Qopp 1) monday9 = subBusinessDays 60 1%Q monday9 /\
  subBusinessDays 61 (Qopp 1) monday9 = addBusinessDays 60 1%Q monday9.
Proof.
  split; [reflexivity |].
  apply (negative_count_hands_over 60 1%Q monday9). reflexivity.
Defined.

Lemma keepsReceiver_lift {A} (r : result A) : keepsReceiver (lift r).
Proof. intros this r' this' H. injection H as _ <-. repeat split. Qed.

Lemma keepsReceiver_ret {A} (a : A) : keepsReceiver (ret a).
Proof. intros this r' this' H. injection H as _ <-. repeat split. Qed.

Lemma keepsReceiver_getThis : keepsReceiver getThis.
Proof. intros this r' this' H. injection H as _ <-. repeat split. Qed.

Lemma keepsReceiver_bind {A B} (m : M A) (k : A -> M B) :
  keepsReceiver m -> (forall a, keepsReceiver (k a)) -> keepsReceiver (bind m k).
Proof.
  intros Hm Hk this r this'. unfold bind.
  destruct (m this) as [[a | err |] this1] eqn:Hrun;
    destruct (Hm _ _ _ Hrun) as [H1 [H2 H3]].
  - intros Hrest. destruct (Hk _ _ _ _ Hrest) as [H4 [H5 H6]].
    repeat split; congruence.
  - intros H. injection H as _ <-. repeat split; assumption.
  - intros H. injection H as _ <-. repeat split; assumption.
Qed.

Lemma keepsReceiver_setLengthOfBusinessDay (d : Duration) :
  keepsReceiver (setLengthOfBusinessDay d).
Proof.
  intros this r this'. rewrite setLengthOfBusinessDay_cases.
  intros H. injection H as _ <-. repeat split.
Qed.

Lemma keepsReceiver_lengthOfBusinessDay (fuel : nat) :
  keepsReceiver (lengthOfBusinessDay fuel).
Proof.
  intros this r this' H. apply lengthOfBusinessDay_frame in H.
  destruct H as [H1 [H2 [H3 _]]]. repeat split; assumption.
Qed.

Lemma keepsReceiver_diffInPartialBusinessDays (fuel : nat) (time : Moment)
    (absolute : bool) :
  keepsReceiver (diffInPartialBusinessDays fuel time absolute).
Proof.
  unfold diffInPartialBusinessDays.
  apply keepsReceiver_bind; [apply keepsReceiver_getThis | intros this].
  apply keepsReceiver_bind; [apply keepsReceiver_lift | intros diff].
  apply keepsReceiver_bind; [apply keepsReceiver_lengthOfBusinessDay | intros len].
  apply keepsReceiver_bind; [apply keepsReceiver_lift | intros divisor].
  apply keepsReceiver_lift.
Qed.

Lemma keepsReceiver_diffInBusinessDays (fuel : nat) (time : Moment)
    (absolute : bool) :
  keepsReceiver (diffInBusinessDays fuel time absolute).
Proof.
  unfold diffInBusinessDays.
  apply keepsReceiver_bind;
    [apply keepsReceiver_diffInPartialBusinessDays | intros partial].
  apply keepsReceiver_ret.
Qed.

Lemma keepsReceiver_residual (fuel : nat) (n : Big.t) (next : BusinessTime) :
  keepsReceiver (addBusinessDays_residual fuel n next) /\
  keepsReceiver (subBusinessDays_residual fuel n next).
Proof.
  split; unfold addBusinessDays_residual, subBusinessDays_residual;
    (apply keepsReceiver_bind; [apply keepsReceiver_getThis | intros this]);
    (apply keepsReceiver_bind;
       [apply keepsReceiver_diffInPartialBusinessDays | intros covered]);
    (apply keepsReceiver_bind; [apply keepsReceiver_lift | intros pd]);
    (apply keepsReceiver_bind;
       [apply keepsReceiver_lengthOfBusinessDay | intros len]);
    (apply keepsReceiver_bind; [apply keepsReceiver_lift | intros dec]);
    apply keepsReceiver_lift.
Qed.

Lemma keepsReceiver_addBusinessDays (fuel : nat) :
  forall n : Big.t,
    keepsReceiver (addBusinessDays fuel n) /\
    keepsReceiver (subBusinessDays fuel n).
Proof.
  induction fuel as [| fuel IH]; intros n.
  - split; apply keepsReceiver_lift.
  - split; cbn [addBusinessDays subBusinessDays];
      destruct (Big.lt n (Big.ofZ 0)); try apply IH;
      (apply keepsReceiver_bind; [apply keepsReceiver_getThis | intros this]);
      apply keepsReceiver_residual.
Qed.

(** X14: the length setter and resolver, the differences in business days
    and [addBusinessDays]/[subBusinessDays] leave the receiver's instant,
    precision and constraints as they found them, whatever the outcome:
    of the receiver they touch the cache only. *)
Theorem business_day_methods_keep_the_receiver (fuel : nat) (d : Duration)
    (time : Moment) (absolute : bool) (n : Big.t) :
  keepsReceiver (setLengthOfBusinessDay d) /\
  keepsReceiver (lengthOfBusinessDay fuel) /\
  keepsReceiver (diffInPartialBusinessDays fuel time absolute) /\
  keepsReceiver (diffInBusinessDays fuel time absolute) /\
  keepsReceiver (addBusinessDays fuel n) /\
  keepsReceiver (subBusinessDays fuel n).
Proof.
  split; [apply keepsReceiver_setLengthOfBusinessDay |].
  split; [apply keepsReceiver_lengthOfBusinessDay |].
  split; [apply keepsReceiver_diffInPartialBusinessDays |].
  split; [apply keepsReceiver_diffInBusinessDays |].
  apply keepsReceiver_addBusinessDays.
Qed.

Lemma addBusinessDays_while_grid (precision : Duration) (decrement : Big.t) :
  forall (fuel : nat) (days : Big.t) (next r : BusinessTime),
    lengthOfBusinessDayCached next = None ->
    addBusinessDays_while fuel precision decrement days next = Ok r ->
    exists k : nat,
      (k <= fuel)%nat /\
      r = atMoment next (moment next + Z.of_nat k * precision).
Proof.
  induction fuel as [| fuel IH]; intros days next r Hc; simpl;
    destruct (Big.gt days (Big.ofZ 0)); try discriminate;
    try (intros H; injection H as <-; exists 0%nat; split; [lia |];
         destruct next as [m p cs c]; simpl in Hc; subst c;
         unfold atMoment, new_BusinessTime; simpl; f_equal; lia).
  intros H. apply IH in H; [| reflexivity].
  destruct H as [k [Hk ->]]. exists (S k). split; [lia |].
  unfold add, inputMs. rewrite atMoment_atMoment. simpl moment. f_equal. lia.
Qed.

Lemma subBusinessDays_while_grid (precision : Duration) (decrement : Big.t) :
  forall (fuel : nat) (days : Big.t) (prev r : BusinessTime),
    lengthOfBusinessDayCached prev = None ->
    subBusinessDays_while fuel precision decrement days prev = Ok r ->
    exists k : nat,
      (k <= fuel)%nat /\
      r = atMoment prev (moment prev - Z.of_nat k * precision).
Proof.
  induction fuel as [| fuel IH]; intros days prev r Hc; simpl;
    destruct (Big.gt days (Big.ofZ 0)); try discriminate;
    try (intros H; injection H as <-; exists 0%nat; split; [lia |];
         destruct prev as [m p cs c]; simpl in Hc; subst c;
         unfold atMoment, new_BusinessTime; simpl; f_equal; lia).
  intros H. apply IH in H; [| reflexivity].
  destruct H as [k [Hk ->]]. exists (S k). split; [lia |].
  unfold subtract, inputMs. rewrite atMoment_atMoment. simpl moment.
  f_equal. lia.
Qed.

Lemma residual_grid (fuel : nat) (n : Big.t) (next this res : BusinessTime) :
  lengthOfBusinessDayCached next = None ->
  (fst (addBusinessDays_residual fuel n next this) = Ok res ->
   exists k : nat,
     res = atMoment next (moment next + Z.of_nat k * precision this)) /\
  (fst (subBusinessDays_residual fuel n next this) = Ok res ->
   exists k : nat,
     res = atMoment next (moment next - Z.of_nat k * precision this)).
Proof.
  intros Hc.
  split; unfold addBusinessDays_residual, subBusinessDays_residual, bind,
    getThis, lift;
    destruct (diffInPartialBusinessDays fuel (getMoment next) true this)
      as [[covered | err |] this1]; try discriminate;
    simpl;
    destruct (lengthOfBusinessDay fuel this1) as [[len | err |] this2];
      try discriminate;
    destruct (Big.div (asDays (precision this)) (asDays len))
      as [dec | err |]; try discriminate;
    simpl; intros H.
  - apply addBusinessDays_while_grid in H; [| exact Hc].
    destruct H as [k [_ Hk]]. exists k. exact Hk.
  - apply subBusinessDays_while_grid in H; [| exact Hc].
    destruct H as [k [_ Hk]]. exists k. exact Hk.
Qed.

(** X15: for a count [n >= 0], an engine returned by [addBusinessDays(n)]
    lies a whole number of precision steps after the whole-day jump, and
    one returned by [subBusinessDays(n)] a whole number of precision steps
    before it; it carries the receiver's precision and constraints and an
    empty cache. Each half holds on its own, whatever the other method
    does. *)
Theorem addBusinessDays_lands_on_the_grid (fuel : nat) (n : Big.t)
    (this : BusinessTime) :
  (0 <= n)%Q ->
  (forall next : BusinessTime,
     fst (addBusinessDays (S fuel) n this) = Ok next ->
     exists k : nat,
       next = atMoment this
                (moment this + Qfloor n * unitMs Days
                 + Z.of_nat k * precision this)) /\
  (forall prev : BusinessTime,
     fst (subBusinessDays (S fuel) n this) = Ok prev ->
     exists k : nat,
       prev = atMoment this
                (moment this - Qfloor n * unitMs Days
                 - Z.of_nat k * precision this)).
Proof.
  intros Hn.
  destruct (jump_then_residual fuel n this Hn) as [Hadd Hsub].
  rewrite Hadd, Hsub.
  split.
  - intros next Hnext.
    eapply residual_grid in Hnext; try reflexivity.
    destruct Hnext as [k Hk]; exists k; exact Hk.
  - intros prev Hprev.
    eapply residual_grid in Hprev; try reflexivity.
    destruct Hprev as [k Hk]; exists k; exact Hk.
Qed.

Lemma addBusinessDays_lands_on_the_grid_witness :
  (0 <= 5 # 2)%Q /\
  fst (addBusinessDays 101 (5 # 2) monday9)
    = Ok (atMoment monday9 (utc 2018 5 23 13 0 0 0)) /\
  (exists k : nat,
     atMoment monday9 (utc 2018 5 23 13 0 0 0)
     = atMoment monday9
         (moment monday9 + Qfloor (5 # 2) * unitMs Days
          + Z.of_nat k * precision monday9)) /\
  fst (subBusinessDays 101 (5 # 2) monday9)
    = Ok (atMoment monday9 (utc 2018 5 16 13 0 0 0)) /\
  (exists k : nat,
     atMoment monday9 (utc 2018 5 16 13 0 0 0)
     = atMoment monday9
         (moment monday9 - Qfloor (5 # 2) * unitMs Days
          - Z.of_nat k * precision monday9)).
Proof.
  assert (Hn : (0 <= 5 # 2)%Q) by (unfold Qle; simpl; lia).
  destruct (addBusinessDays_lands_on_the_grid 100 (5 # 2) monday9 Hn)
    as [Hadd Hsub].
  split; [exact Hn |].
  split; [reflexivity |].
  split; [apply Hadd; reflexivity |].
  split; [reflexivity |].
  apply Hsub; reflexivity.
Defined.

(** ** Errors of the division in diffInPartialBusinessDays *)

Lemma diffInPartialBusinessDays_run (fuel : nat) (time : Moment)
    (absolute : bool) (this : BusinessTime) (diff : Big.t) (len : Duration) :
  diffInBusinessTime fuel this time absolute = Ok diff ->
  lengthOfBusinessDayCached this = Some len ->
  diffInPartialBusinessDays fuel time absolute this
  = (result_bind
       (Big.ofNumber (Number_div (asSeconds len) (asSeconds (precision this))))
       (fun divisor => Big.div diff divisor),
     this).
Proof.
  intros Hdiff Hc.
  unfold diffInPartialBusinessDays, bind, getThis, lift.
  rewrite Hdiff, (lengthOfBusinessDay_cached fuel this len Hc).
  destruct (Big.ofNumber
              (Number_div (asSeconds len) (asSeconds (precision this))))
    as [divisor | err |]; reflexivity.
Qed.

(** X16: after [setLengthOfBusinessDay(0)] has thrown, the zero length is
    what the division uses: on an engine with a precision other than zero,
    [diffInPartialBusinessDays] and [diffInBusinessDays] throw big.js'
    division by zero whenever the stepping itself returns. *)
Theorem zero_length_divides_by_zero (fuel : nat) (time : Moment)
    (absolute : bool) (this : BusinessTime) (diff : Big.t) :
  precision this <> 0 ->
  diffInBusinessTime fuel this time absolute = Ok diff ->
  fst (setLengthOfBusinessDay 0 this) = Throw ZeroLengthBusinessDay /\
  fst (diffInPartialBusinessDays fuel time absolute
         (snd (setLengthOfBusinessDay 0 this)))
    = Throw BigDivisionByZero /\
  fst (diffInBusinessDays fuel time absolute
         (snd (setLengthOfBusinessDay 0 this)))
    = Throw BigDivisionByZero.
Proof.
  intros Hp Hdiff.
  rewrite setLengthOfBusinessDay_cases. simpl fst; simpl snd.
  split; [reflexivity |].
  assert (Hpartial : fst (diffInPartialBusinessDays fuel time absolute
                            (setCached this 0)) = Throw BigDivisionByZero).
  { rewrite (diffInPartialBusinessDays_run fuel time absolute
               (setCached this 0) diff 0 Hdiff eq_refl).
    simpl precision. unfold Number_div.
    rewrite (asSeconds_nonzero _ Hp). reflexivity. }
  split; [exact Hpartial |].
  unfold diffInBusinessDays, bind.
  destruct (diffInPartialBusinessDays fuel time absolute (setCached this 0))
    as [[c | err |] this']; simpl in Hpartial; try discriminate.
  injection Hpartial as ->. reflexivity.
Qed.

Lemma zero_length_divides_by_zero_witness :
  precision monday9 <> 0 /\
  diffInBusinessTime 28 monday9 (moment tuesday13) true = Ok (Big.ofZ 12) /\
  (fst (setLengthOfBusinessDay 0 monday9) = Throw ZeroLengthBusinessDay /\
   fst (diffInPartialBusinessDays 28 (moment tuesday13) true
          (snd (setLengthOfBusinessDay 0 monday9)))
     = Throw BigDivisionByZero /\
   fst (diffInBusinessDays 28 (moment tuesday13) true
          (snd (setLengthOfBusinessDay 0 monday9)))
     = Throw BigDivisionByZero).
Proof.
  split; [vm_compute; lia |].
  split; [vm_compute; reflexivity |].
  apply (zero_length_divides_by_zero 28 (moment tuesday13) true monday9
           (Big.ofZ 12)).
  - vm_compute; lia.
  - vm_compute; reflexivity.
Defined.

(** X17: on an engine whose precision is zero and whose cache holds a
    length, [diffInPartialBusinessDays] throws big.js' invalid-number error
    whenever the stepping itself returns: the ratio of the length to the
    precision is no finite number. *)
Theorem zero_precision_is_an_invalid_number (fuel : nat) (time : Moment)
    (absolute : bool) (this : BusinessTime) (diff : Big.t) (len : Duration) :
  precision this = 0 ->
  lengthOfBusinessDayCached this = Some len ->
  diffInBusinessTime fuel this time absolute = Ok diff ->
  diffInPartialBusinessDays fuel time absolute this
  = (Throw BigInvalidNumber, this).
Proof.
  intros Hp Hc Hdiff.
  rewrite (diffInPartialBusinessDays_run fuel time absolute this diff len
             Hdiff Hc), Hp.
  reflexivity.
Qed.

Lemma zero_precision_is_an_invalid_number_witness :
  let this := setCached (new_BusinessTime (utc 2018 5 21 9 0 0 0) (Some 0) None)
                (duration 8 Hours) in
  precision this = 0 /\
  lengthOfBusinessDayCached this = Some (duration 8 Hours) /\
  diffInBusinessTime 0 this (moment this) true = Ok (Big.ofZ 0) /\
  diffInPartialBusinessDays 0 (moment this) true this
  = (Throw BigInvalidNumber, this).
Proof.
  intros this.
  split; [reflexivity |].
  split; [reflexivity |].
  split; [reflexivity |].
  apply (zero_precision_is_an_invalid_number 0 (moment this) true this
           (Big.ofZ 0) (duration 8 Hours)); reflexivity.
Defined.

(** ** When the whole-day jump covers the count *)

Lemma diffInPartialBusinessDays_inversion (fuel : nat) (time : Moment)
    (absolute : bool) (this this' : BusinessTime) (covered : Big.t) :
  diffInPartialBusinessDays fuel time absolute this = (Ok covered, this') ->
  exists len,
    lengthOfBusinessDay fuel this = (Ok len, this') /\
    len <> 0.
Proof.
  unfold diffInPartialBusinessDays, bind, getThis, lift.
  destruct (diffInBusinessTime fuel this time absolute) as [diff | err |];
    try discriminate.
  destruct (lengthOfBusinessDay fuel this) as [[len | err |] this1];
    try discriminate.
  unfold Number_div.
  destruct (Qeq_bool (asSeconds (precision this)) 0); try discriminate.
  simpl. unfold Big.div.
  destruct (Qeq_bool (Qdiv (asSeconds len) (asSeconds (precision this))) 0)
    eqn:Hzero; try discriminate.
  intros H. injection H as _ <-.
  exists len. split; [reflexivity |].
  intros ->. unfold Qeq_bool, Qdiv, Qmult, asSeconds in Hzero.
  simpl in Hzero. discriminate Hzero.
Qed.

Lemma not_gt_when_covered (n covered : Big.t) :
  (n <= covered)%Q -> Big.gt (Big.sub n covered) (Big.ofZ 0) = false.
Proof.
  intros Hle. unfold Big.gt, Big.sub, Big.ofZ.
  assert (H : (n - covered <= inject_Z 0)%Q).
  { change (inject_Z 0) with 0%Q. lra. }
  apply Qle_bool_iff in H. rewrite H. reflexivity.
Qed.

Lemma residual_when_covered (fuel : nat) (n covered : Big.t)
    (next this this' : BusinessTime) :
  diffInPartialBusinessDays fuel (getMoment next) true this = (Ok covered, this') ->
  (n <= covered)%Q ->
  addBusinessDays_residual fuel n next this = (Ok next, this') /\
  subBusinessDays_residual fuel n next this = (Ok next, this').
Proof.
  intros Hrun Hle.
  destruct (diffInPartialBusinessDays_inversion _ _ _ _ _ _ Hrun)
    as [len [Hlen Hnz]].
  destruct (lengthOfBusinessDay_frame _ _ _ _ Hlen) as [_ [_ [_ Hcache]]].
  specialize (Hcache len eq_refl).
  unfold addBusinessDays_residual, subBusinessDays_residual, bind, getThis, lift.
  rewrite Hrun. simpl.
  rewrite (lengthOfBusinessDay_cached fuel this' len Hcache).
  unfold Big.div. rewrite (asDays_nonzero _ Hnz).
  split; destruct fuel; simpl; rewrite (not_gt_when_covered _ _ Hle);
    reflexivity.
Qed.

(** X18: on an engine whose precision is a whole number of seconds and
    whose business-day length is a whole multiple of the precision (the
    ratio of the two is then the same whole number in the code's binary64
    arithmetic as here), for a count [n >= 0]: when the business days
    between the receiver and the whole-day jump ahead already cover [n],
    [addBusinessDays(n)] returns the engine at the jump itself and takes no
    further step; and likewise [subBusinessDays(n)] for the jump back. Each
    half holds on its own. *)
Theorem jump_that_covers_is_returned (fuel : nat) (n : Big.t)
    (this : BusinessTime) :
  (0 <= n)%Q ->
  precision this mod 1000 = 0 ->
  (forall (covered : Big.t) (len : Duration) (this' : BusinessTime),
     lengthOfBusinessDay fuel this = (Ok len, this') ->
     (exists m, len = m * precision this) ->
     diffInPartialBusinessDays fuel
       (moment this + Qfloor n * unitMs Days) true this = (Ok covered, this') ->
     (n <= covered)%Q ->
     addBusinessDays (S fuel) n this
     = (Ok (atMoment this (moment this + Qfloor n * unitMs Days)), this')) /\
  (forall (covered : Big.t) (len : Duration) (this' : BusinessTime),
     lengthOfBusinessDay fuel this = (Ok len, this') ->
     (exists m, len = m * precision this) ->
     diffInPartialBusinessDays fuel
       (moment this - Qfloor n * unitMs Days) true this = (Ok covered, this') ->
     (n <= covered)%Q ->
     subBusinessDays (S fuel) n this
     = (Ok (atMoment this (moment this - Qfloor n * unitMs Days)), this')).
Proof.
  intros Hn _.
  destruct (jump_then_residual fuel n this Hn) as [Hadd Hsub].
  rewrite Hadd, Hsub.
  split; intros covered len this' _ _ Hrun Hle.
  - eapply residual_when_covered; eassumption.
  - eapply residual_when_covered; eassumption.
Qed.

(** Monday 2018-05-21T13:00:00Z with the constructor's defaults: the jump
    ahead by one day covers one business day, the jump back (to Sunday)
    only half of one. *)
Lemma jump_that_covers_is_returned_witness :
  let monday13 := new_BusinessTime (utc 2018 5 21 13 0 0 0) None None in
  let cached := setCached monday13 (duration 8 Hours) in
  (0 <= 1)%Q /\
  precision monday13 mod 1000 = 0 /\
  lengthOfBusinessDay 60 monday13 = (Ok (duration 8 Hours), cached) /\
  (exists m, duration 8 Hours = m * precision monday13) /\
  diffInPartialBusinessDays 60
    (moment monday13 + Qfloor 1 * unitMs Days) true monday13
    = (Ok (Big.round Big.DP Big.RM 1%Q), cached) /\
  (1 <= Big.round Big.DP Big.RM 1%Q)%Q /\
  addBusinessDays 61 1%Q monday13
    = (Ok (atMoment monday13 (utc 2018 5 22 13 0 0 0)), cached).
Proof.
  intros monday13 cached.
  assert (Hn : (0 <= 1)%Q) by (unfold Qle; simpl; lia).
  assert (Hp : precision monday13 mod 1000 = 0) by reflexivity.
  assert (Hm : exists m, duration 8 Hours = m * precision monday13)
    by (exists 8; reflexivity).
  assert (Hcovers : (1 <= Big.round Big.DP Big.RM 1%Q)%Q)
    by (vm_compute; discriminate).
  destruct (jump_that_covers_is_returned 60 1%Q monday13 Hn Hp) as [Hadd _].
  split; [exact Hn |].
  split; [exact Hp |].
  split; [reflexivity |].
  split; [exact Hm |].
  split; [reflexivity |].
  split; [exact Hcovers |].
  apply (Hadd (Big.round Big.DP Big.RM 1%Q) (duration 8 Hours) cached).
  - reflexivity.
  - exact Hm.
  - reflexivity.
  - exact Hcovers.
Defined.

(** ** Symmetry of the stepping itself *)

(** X19: for two engines of the same precision, whatever their constraints
    and caches, [diffInBusinessTime] and [diffBusiness] with
    [absolute = true] are the same from either engine to the other's
    instant, and [diffInBusinessTime] with [absolute = false] changes
    sign. *)
Theorem diffInBusinessTime_is_symmetric (fuel : nat) (a b : BusinessTime) :
  precision a = precision b ->
  diffInBusinessTime fuel a (moment b) true
    = diffInBusinessTime fuel b (moment a) true /\
  diffInBusinessTime fuel a (moment b) false
    = result_map Qopp (diffInBusinessTime fuel b (moment a) false) /\
  diffBusiness fuel a (moment b) true = diffBusiness fuel b (moment a) true.
Proof.
  intros Hp.
  split; [apply diffInBusinessTime_symmetric; exact Hp |].
  split; [apply diffInBusinessTime_antisymmetric; exact Hp |].
  unfold diffBusiness.
  rewrite (diffInBusinessTime_symmetric a b Hp fuel), Hp. reflexivity.
Qed.

Lemma diffInBusinessTime_is_symmetric_witness :
  precision saturday9_unconstrained = precision tuesday13 /\
  diffInBusinessTime 100 saturday9_unconstrained (moment tuesday13) true
    = diffInBusinessTime 100 tuesday13 (moment saturday9_unconstrained) true /\
  diffInBusinessTime 100 saturday9_unconstrained (moment tuesday13) false
    = result_map Qopp
        (diffInBusinessTime 100 tuesday13 (moment saturday9_unconstrained) false) /\
  diffBusiness 100 saturday9_unconstrained (moment tuesday13) true
    = diffBusiness 100 tuesday13 (moment saturday9_unconstrained) true.
Proof.
  split; [reflexivity |].
  apply (diffInBusinessTime_is_symmetric 100 saturday9_unconstrained tuesday13).
  reflexivity.
Defined.

(** ** Differences in business days on a well-formed engine *)

Lemma diffInBusinessTime_returns (fuel : nat) (this : BusinessTime)
    (time : Moment) (absolute : bool) :
  0 < precision this ->
  (stepsBetween (Z.min (moment this) time) (Z.max (moment this) time)
     (precision this) <= fuel)%nat ->
  exists c, diffInBusinessTime fuel this time absolute = Ok (inject_Z c).
Proof.
  intros Hp Hfuel.
  destruct (Moment_isSame time (moment this) Minutes) eqn:Hsame.
  - exists 0. unfold diffInBusinessTime, getMoment. rewrite Hsame. reflexivity.
  - rewrite diffInBusinessTime_start_end by exact Hsame.
    change (Big.ofZ 0) with (inject_Z 0).
    rewrite (diffInBusinessTime_while_closed_form _ _ Hp _ fuel _ 0 eq_refl)
      by exact Hfuel.
    simpl. rewrite mul_sign. eexists; reflexivity.
Qed.

(** X20: on an engine with a positive precision and a cached length other
    than zero, once the fuel covers the steps between the two instants,
    [diffInPartialBusinessDays] and [diffInBusinessDays] return without
    throwing and leave the receiver as it is, and [diffInBusinessDays] is
    the whole number obtained by truncating the partial difference. *)
Theorem diffInBusinessDays_on_a_well_formed_engine (fuel : nat)
    (time : Moment) (absolute : bool) (this : BusinessTime) (len : Duration) :
  0 < precision this ->
  lengthOfBusinessDayCached this = Some len ->
  len <> 0 ->
  (stepsBetween (Z.min (moment this) time) (Z.max (moment this) time)
     (precision this) <= fuel)%nat ->
  exists partial,
    diffInPartialBusinessDays fuel time absolute this = (Ok partial, this) /\
    diffInBusinessDays fuel time absolute this
      = (Ok (inject_Z (Qtruncate partial)), this).
Proof.
  intros Hp Hc Hlen Hfuel.
  destruct (diffInBusinessTime_returns fuel this time absolute Hp Hfuel)
    as [c Hdiff].
  assert (Hpne : precision this <> 0) by lia.
  assert (Hrun : diffInPartialBusinessDays fuel time absolute this
                 = (Ok (Big.round Big.DP Big.RM
                          (Qdiv (inject_Z c)
                             (Qdiv (asSeconds len) (asSeconds (precision this))))),
                    this)).
  { rewrite (diffInPartialBusinessDays_run _ _ _ _ _ _ Hdiff Hc).
    unfold Number_div. rewrite (asSeconds_nonzero _ Hpne). simpl.
    unfold Big.div.
    rewrite (Qdiv_nonzero _ _ (asSeconds_nonzero _ Hlen)
               (asSeconds_nonzero _ Hpne)).
    reflexivity. }
  eexists. split; [exact Hrun |].
  unfold diffInBusinessDays, bind, ret. rewrite Hrun.
  rewrite round_down_truncates. reflexivity.
Qed.

Lemma diffInBusinessDays_on_a_well_formed_engine_witness :
  let this := setCached monday9 (duration 4 Hours) in
  0 < precision this /\
  lengthOfBusinessDayCached this = Some (duration 4 Hours) /\
  duration 4 Hours <> 0 /\
  (stepsBetween (Z.min (moment this) (moment tuesday13))
     (Z.max (moment this) (moment tuesday13)) (precision this) <= 28)%nat /\
  exists partial,
    diffInPartialBusinessDays 28 (moment tuesday13) true this
      = (Ok partial, this) /\
    diffInBusinessDays 28 (moment tuesday13) true this
      = (Ok (inject_Z (Qtruncate partial)), this).
Proof.
  intros this.
  split; [reflexivity |].
  split; [reflexivity |].
  split; [vm_compute; lia |].
  split; [vm_compute; lia |].
  apply (diffInBusinessDays_on_a_well_formed_engine 28 (moment tuesday13) true
           this (duration 4 Hours)).
  - reflexivity.
  - reflexivity.
  - vm_compute; lia.
  - vm_compute; lia.
Defined.

(** ** Stepping loops that cannot end *)

(** With no step in business time the remainder never goes down. *)
Lemma addBusinessDays_while_never (precision : Duration) (decrement : Big.t) :
  forall (fuel : nat) (days : Big.t) (next : BusinessTime),
    Big.gt days (Big.ofZ 0) = true ->
    (forall k : nat,
       isBusinessTime (atMoment next (moment next + Z.of_nat k * precision))
       = false) ->
    addBusinessDays_while fuel precision decrement days next = OutOfFuel.
Proof.
  induction fuel as [| fuel IH]; intros days next Hdays Hnever; simpl;
    rewrite Hdays; [reflexivity |].
  assert (Hnow : isBusinessTime next = false).
  { specialize (Hnever 0%nat). unfold isBusinessTime, getMoment in *.
    simpl in Hnever. rewrite Z.add_0_r in Hnever. exact Hnever. }
  rewrite Hnow. apply IH; [exact Hdays |].
  intros k. specialize (Hnever (S k)).
  unfold add, inputMs. rewrite atMoment_atMoment. simpl moment.
  replace (moment next + precision + Z.of_nat k * precision)
    with (moment next + Z.of_nat (S k) * precision) by lia.
  exact Hnever.
Qed.

Lemma subBusinessDays_while_never (precision : Duration) (decrement : Big.t) :
  forall (fuel : nat) (days : Big.t) (prev : BusinessTime),
    Big.gt days (Big.ofZ 0) = true ->
    (forall k : nat,
       isBusinessTime (atMoment prev (moment prev - Z.of_nat k * precision))
       = false) ->
    subBusinessDays_while fuel precision decrement days prev = OutOfFuel.
Proof.
  induction fuel as [| fuel IH]; intros days prev Hdays Hnever; simpl;
    rewrite Hdays; [reflexivity |].
  assert (Hstep : isBusinessTime (subtract prev (OfDuration precision)) = false).
  { specialize (Hnever 1%nat). unfold subtract, inputMs.
    replace (moment prev - precision)
      with (moment prev - Z.of_nat 1 * precision) by lia.
    exact Hnever. }
  rewrite Hstep. apply IH; [exact Hdays |].
  intros k. specialize (Hnever (S k)).
  unfold subtract, inputMs. rewrite atMoment_atMoment. simpl moment.
  replace (moment prev - precision - Z.of_nat k * precision)
    with (moment prev - Z.of_nat (S k) * precision) by lia.
  exact Hnever.
Qed.

(** X21: while business days remain to be added or subtracted, the
    stepping loops of [addBusinessDays] and [subBusinessDays] never end
    when no instant on their way is in business time: only a step in
    business time brings the remainder down. *)
Theorem stepping_without_business_time_never_ends (fuel : nat)
    (precision : Duration) (decrement days : Big.t) (next : BusinessTime) :
  Big.gt days (Big.ofZ 0) = true ->
  (forall t, isBusinessTime (atMoment next t) = false) ->
  addBusinessDays_while fuel precision decrement days next = OutOfFuel /\
  subBusinessDays_while fuel precision decrement days next = OutOfFuel.
Proof.
  intros Hdays Hnever. split.
  - apply addBusinessDays_while_never; [exact Hdays | intros k; apply Hnever].
  - apply subBusinessDays_while_never; [exact Hdays | intros k; apply Hnever].
Qed.

Lemma stepping_without_business_time_never_ends_witness :
  let never := IBusinessTimeConstraint.Build (fun _ => false) in
  let next := new_BusinessTime (utc 2018 5 21 9 0 0 0) None (Some [never]) in
  Big.gt 1%Q (Big.ofZ 0) = true /\
  (forall t, isBusinessTime (atMoment next t) = false) /\
  addBusinessDays_while 1000 (duration 1 Hours) (1 # 8)%Q 1%Q next = OutOfFuel /\
  subBusinessDays_while 1000 (duration 1 Hours) (1 # 8)%Q 1%Q next = OutOfFuel.
Proof.
  intros never next.
  split; [reflexivity |].
  split; [intros t; reflexivity |].
  apply (stepping_without_business_time_never_ends 1000 (duration 1 Hours)
           (1 # 8)%Q 1%Q next).
  - reflexivity.
  - intros t. reflexivity.
Defined.
